(** * Tiered block objects: flush, load and the switch to a new file

    A shallow embedding of [src/third_party/wiredtiger/src/block/block_tiered.c]
    and the properties of its three functions

      - [__wt_block_tiered_flush]
      - [__wt_block_tiered_load]
      - [__wt_block_tiered_newfile]

    The functions mutate a [WT_BLOCK] in place and call into the rest of the
    block manager and the operating-system layer.  The embedding threads the
    block and the session explicitly and keeps every call that leaves the
    file as a node of a program tree ([prog]); a handler gives the calls a
    meaning over a world, and running a program yields its result, the final
    world and the list of calls made with their answers. *)

From stdpp Require Import base gmap strings list.
From Stdlib Require Import ZArith Lia Ascii.

Open Scope Z_scope.

(** ** Machine integers *)

(** C [int]: the return code of every function here, [0] for success. *)
Definition int := Z.

(** [uint32_t] arithmetic wraps modulo [2^32]. *)
Definition UINT32_MAX : Z := 4294967295.
Definition u32 (z : Z) : Z := z mod 2 ^ 32.
Definition is_u32 (z : Z) : Prop := 0 <= z <= UINT32_MAX.

(** ** Data model *)

(** Pointers to objects owned by other layers are opaque references; a C
    [NULL] is [None]. *)
Definition WT_FH := N.
Definition WT_ITEM := N.
Definition WT_BUCKET_STORAGE := N.

(** The file types [__wt_open] distinguishes. *)
Inductive WT_FS_OPEN_FILE_TYPE :=
| WT_FS_OPEN_FILE_TYPE_CHECKPOINT
| WT_FS_OPEN_FILE_TYPE_DATA
| WT_FS_OPEN_FILE_TYPE_DIRECTORY
| WT_FS_OPEN_FILE_TYPE_LOG
| WT_FS_OPEN_FILE_TYPE_REGULAR.

(** [WT_BLOCK_CKPT]: the only field read here is [root_objectid]; everything
    else of a checkpoint is carried as one opaque component. *)
Record WT_BLOCK_CKPT := {
  root_objectid : Z;          (* uint32_t *)
  ckpt_rest : list Z
}.

(** [WT_BLOCK], restricted to the fields [block_tiered.c] touches. *)
Record WT_BLOCK := {
  name : string;              (* const char *name *)
  objectid : Z;               (* uint32_t objectid *)
  fh : option WT_FH;          (* WT_FH *fh *)
  size : Z;                   (* wt_off_t size *)
  allocsize : Z;              (* uint32_t allocsize *)
  file_flags : Z;             (* uint32_t file_flags *)
  has_objects : bool;         (* bool has_objects *)
  live : WT_BLOCK_CKPT        (* WT_BLOCK_CKPT live *)
}.

Definition set_objectid (v : Z) (b : WT_BLOCK) : WT_BLOCK :=
  {| name := name b; objectid := v; fh := fh b; size := size b;
     allocsize := allocsize b; file_flags := file_flags b;
     has_objects := has_objects b; live := live b |}.

Definition set_fh (v : option WT_FH) (b : WT_BLOCK) : WT_BLOCK :=
  {| name := name b; objectid := objectid b; fh := v; size := size b;
     allocsize := allocsize b; file_flags := file_flags b;
     has_objects := has_objects b; live := live b |}.

Definition set_size (v : Z) (b : WT_BLOCK) : WT_BLOCK :=
  {| name := name b; objectid := objectid b; fh := fh b; size := v;
     allocsize := allocsize b; file_flags := file_flags b;
     has_objects := has_objects b; live := live b |}.

Definition set_live (v : WT_BLOCK_CKPT) (b : WT_BLOCK) : WT_BLOCK :=
  {| name := name b; objectid := objectid b; fh := fh b; size := size b;
     allocsize := allocsize b; file_flags := file_flags b;
     has_objects := has_objects b; live := v |}.

Definition set_has_objects (v : bool) (b : WT_BLOCK) : WT_BLOCK :=
  {| name := name b; objectid := objectid b; fh := fh b; size := size b;
     allocsize := allocsize b; file_flags := file_flags b;
     has_objects := v; live := live b |}.

(** [WT_SESSION_IMPL], restricted to the bucket storage the open is routed
    through: the session's own, and the connection's ([S2C(session)->bstorage]). *)
Record WT_SESSION_IMPL := {
  bucket_storage : option WT_BUCKET_STORAGE;
  conn_bstorage : option WT_BUCKET_STORAGE
}.

Definition set_bucket_storage (v : option WT_BUCKET_STORAGE)
    (s : WT_SESSION_IMPL) : WT_SESSION_IMPL :=
  {| bucket_storage := v; conn_bstorage := conn_bstorage s |}.

(** What a caller's variable behind an out-pointer holds: [None] as long as
    nothing has been stored into it. *)
Definition out_cell (A : Type) : Type := option A.

(** ** Formatting: [%s.%08u] *)

Definition digit_char (d : Z) : Ascii.ascii :=
  Ascii.ascii_of_N (48 + Z.to_N d).

(** The digits of [v], most significant first, pushed in front of [acc]: the
    loop of the [%u] conversion, which emits [v % 10] and goes on with
    [v / 10] until nothing is left.  A 32-bit value needs at most ten rounds. *)
Fixpoint fmt_digits (rounds : nat) (v : Z) (acc : string) : string :=
  match rounds with
  | O => acc
  | S n =>
      let acc' := String (digit_char (v mod 10)) acc in
      if v / 10 =? 0 then acc' else fmt_digits n (v / 10) acc'
  end.

(** [%u] for a [uint32_t]. *)
Definition fmt_u (v : Z) : string := fmt_digits 10 v EmptyString.

Fixpoint zeros (n : nat) : string :=
  match n with
  | O => EmptyString
  | S m => String "0"%char (zeros m)
  end.

(** [%0<width>u]: [%u] padded on the left with zeros up to a minimum width. *)
Definition fmt_0u (width : nat) (v : Z) : string :=
  let d := fmt_u v in
  zeros (width - String.length d) +:+ d.

(** The result of formatting with ["%s.%08" PRIu32]. *)
Definition fmt_object_name (nm : string) (id : Z) : string :=
  nm +:+ "." +:+ fmt_0u 8 id.

(** ** Calls into other layers *)

(** The functions [block_tiered.c] calls and does not define.  Each call
    carries the arguments it is given (the session pointer, passed to all of
    them, is the world the handler runs in); [Resp] is what comes back: the
    return code and the new content of every location written through a
    pointer argument. *)
Inductive Call : Type :=
| ScrAlloc (size : Z) (tmp : option WT_ITEM)
    (* __wt_scr_alloc(session, size, &tmp) *)
| Close (fhp : option WT_FH)
    (* __wt_close(session, &fh) *)
| BufFmt (tmp : option WT_ITEM) (text : string)
    (* __wt_buf_fmt(session, tmp, fmt, ...): [text] is the formatted text,
       which is the buffer's data when the call succeeds *)
| Open (bstorage : option WT_BUCKET_STORAGE) (filename : string)
       (file_type : WT_FS_OPEN_FILE_TYPE) (flags : Z) (fhp : option WT_FH)
    (* __wt_open(session, name, file_type, flags, &fh), with the bucket storage
       the session holds during the call *)
| DescWrite (fhv : option WT_FH) (alloc : Z)
    (* __wt_desc_write(session, fh, allocsize) *)
| CkptDestroy (ci : WT_BLOCK_CKPT)
    (* __wt_block_ckpt_destroy(session, &ci) *)
| CkptInit (ci : WT_BLOCK_CKPT) (tag : string)
    (* __wt_block_ckpt_init(session, &ci, name) *)
| ScrFree (tmp : option WT_ITEM).
    (* __wt_scr_free(session, &tmp) *)

Definition Resp (c : Call) : Type :=
  match c with
  | ScrAlloc _ _ => (int * option WT_ITEM)%type
  | Close _ => (int * option WT_FH)%type
  | BufFmt _ _ => int
  | Open _ _ _ _ _ => (int * option WT_FH)%type
  | DescWrite _ _ => int
  | CkptDestroy _ => WT_BLOCK_CKPT
  | CkptInit _ _ => (int * WT_BLOCK_CKPT)%type
  | ScrFree _ => option WT_ITEM
  end.

(** Programs: a result, or a call and what to do with its answer. *)
Inductive prog (T : Type) : Type :=
| Ret (x : T)
| Do (c : Call) (k : Resp c -> prog T).

Arguments Ret {T} x.
Arguments Do {T} c k.

Fixpoint bind {T U : Type} (p : prog T) (f : T -> prog U) : prog U :=
  match p with
  | Ret x => f x
  | Do c k => Do c (fun r => bind (k r) f)
  end.

#[global] Instance prog_ret : MRet prog := @Ret.
#[global] Instance prog_bind : MBind prog := fun T U f p => bind p f.

Definition call (c : Call) : prog (Resp c) := Do c Ret.

Definition __wt_scr_alloc (sz : Z) (tmp : option WT_ITEM) := call (ScrAlloc sz tmp).
Definition __wt_close (fhp : option WT_FH) := call (Close fhp).
Definition __wt_buf_fmt (tmp : option WT_ITEM) (text : string) := call (BufFmt tmp text).
Definition __wt_open (session : WT_SESSION_IMPL) (filename : string)
    (file_type : WT_FS_OPEN_FILE_TYPE) (flags : Z) (fhp : option WT_FH) :=
  call (Open (bucket_storage session) filename file_type flags fhp).
Definition __wt_desc_write (fhv : option WT_FH) (alloc : Z) := call (DescWrite fhv alloc).
Definition __wt_block_ckpt_destroy (ci : WT_BLOCK_CKPT) := call (CkptDestroy ci).
Definition __wt_block_ckpt_init (ci : WT_BLOCK_CKPT) (tag : string) := call (CkptInit ci tag).
Definition __wt_scr_free (tmp : option WT_ITEM) := call (ScrFree tmp).

(** ** The functions of [block_tiered.c] *)

Section Tiered.

(** The value of the flag [WT_FS_OPEN_CREATE], defined with the other open
    flags outside this file. *)
Variable WT_FS_OPEN_CREATE : Z.

(** Modelled from the spec: the macro [WT_WITH_BUCKET_STORAGE(bsto, s, e)]
    is defined outside this file.  It is the scoped routing context: for the
    duration of [e] the session's bucket storage is [bsto], or the
    connection's when [bsto] is [NULL]; the association is released, that
    is, the saved value is put back, when [e] is over. *)
Definition WT_WITH_BUCKET_STORAGE {T : Type} (bsto : option WT_BUCKET_STORAGE)
    (s : WT_SESSION_IMPL) (e : WT_SESSION_IMPL -> prog T)
    : prog (T * WT_SESSION_IMPL) :=
  let saved := bucket_storage s in
  let s := set_bucket_storage
             (match bsto with None => conn_bstorage s | Some b => Some b end) s in
  x ← e s;
  mret (x, set_bucket_storage saved s).

(** The label [err:] of [__wt_block_tiered_newfile]: release the scratch
    buffer and return [ret].  [WT_ERR(a)] is [if ((ret = (a)) != 0) goto err;]. *)
Definition newfile_err (session : WT_SESSION_IMPL) (block : WT_BLOCK)
    (tmp : option WT_ITEM) (ret : int) : prog (int * WT_SESSION_IMPL * WT_BLOCK) :=
  _ ← __wt_scr_free tmp;
  mret (ret, session, block).

(** [__wt_block_tiered_newfile]: switch a log-structured block object to a
    new file. *)
Definition __wt_block_tiered_newfile (session : WT_SESSION_IMPL) (block : WT_BLOCK)
    : prog (int * WT_SESSION_IMPL * WT_BLOCK) :=
  let tmp : option WT_ITEM := None in                       (* WT_DECL_ITEM(tmp) *)
  '(ret, tmp) ← __wt_scr_alloc 0 tmp;
  if negb (ret =? 0) then newfile_err session block tmp ret else
  '(ret, fh') ← __wt_close (fh block);
  let block := set_fh fh' block in
  if negb (ret =? 0) then newfile_err session block tmp ret else
  let block := set_objectid (u32 (objectid block + 1)) block in   (* ++block->objectid *)
  let text := fmt_object_name (name block) (objectid block) in
  ret ← __wt_buf_fmt tmp text;
  if negb (ret =? 0) then newfile_err session block tmp ret else
  let filename := text in                                   (* filename = tmp->data *)
  '(ret, fh', session) ←
    WT_WITH_BUCKET_STORAGE (bucket_storage session) session (fun session =>
      __wt_open session filename WT_FS_OPEN_FILE_TYPE_DATA
        (Z.lor WT_FS_OPEN_CREATE (file_flags block)) (fh block));
  let block := set_fh fh' block in
  if negb (ret =? 0) then newfile_err session block tmp ret else
  ret ← __wt_desc_write (fh block) (allocsize block);
  if negb (ret =? 0) then newfile_err session block tmp ret else
  let block := set_size (allocsize block) block in
  ci ← __wt_block_ckpt_destroy (live block);
  let block := set_live ci block in
  '(ret, ci) ← __wt_block_ckpt_init (live block) "live";
  let block := set_live ci block in
  newfile_err session block tmp ret.             (* WT_ERR, then falls into err: *)

(** [__wt_block_tiered_flush]: flush this file, start another file.  The two
    cookie arguments are cast to [void] and nothing else is done with them:
    what the caller's variables hold is handed back as it came. *)
Definition __wt_block_tiered_flush (session : WT_SESSION_IMPL) (block : WT_BLOCK)
    (flush_cookie : out_cell (list Z)) (cookie_size : out_cell Z)
    : prog (int * WT_SESSION_IMPL * WT_BLOCK * out_cell (list Z) * out_cell Z) :=
  '(ret, session, block) ← __wt_block_tiered_newfile session block;
  mret (ret, session, block, flush_cookie, cookie_size).

(** [__wt_block_tiered_load]: set up log-structured processing when loading a
    new root page.  [WT_RET(a)] returns [a]'s code when it is not zero. *)
Definition __wt_block_tiered_load (session : WT_SESSION_IMPL) (block : WT_BLOCK)
    (ci : WT_BLOCK_CKPT) : prog (int * WT_SESSION_IMPL * WT_BLOCK) :=
  if has_objects block then
    let block := set_objectid (root_objectid ci) block in
    '(ret, session, block) ← __wt_block_tiered_newfile session block;
    if negb (ret =? 0) then mret (ret, session, block) else
    mret (0, session, block)
  else mret (0, session, block).

End Tiered.

(** ** Running a program *)

(** One call as it happened: the call and its answer. *)
Record Event := Ev { ev_call : Call; ev_resp : Resp ev_call }.

Section Run.

Context {W : Type}.

(** What the other layers do: every call, in a world, gives an answer and a
    new world. *)
Variable handler : forall c : Call, W -> Resp c * W.

Fixpoint run {T : Type} (p : prog T) (w : W) : T * W * list Event :=
  match p with
  | Ret x => (x, w, [])
  | Do c k =>
      let '(r, w1) := handler c w in
      let '(x, w2, tr) := run (k r) w1 in
      (x, w2, Ev c r :: tr)
  end.

End Run.

(** The return code of a call that has one. *)
Definition ev_ret (e : Event) : option int :=
  match e with
  | Ev (ScrAlloc _ _) r => Some (fst r)
  | Ev (Close _) r => Some (fst r)
  | Ev (BufFmt _ _) r => Some r
  | Ev (Open _ _ _ _ _) r => Some (fst r)
  | Ev (DescWrite _ _) r => Some r
  | Ev (CkptDestroy _) _ => None
  | Ev (CkptInit _ _) r => Some (fst r)
  | Ev (ScrFree _) _ => None
  end.

(** The steps of a rollover, by the function called. *)
Inductive Step :=
| StepScrAlloc | StepClose | StepBufFmt | StepOpen | StepDescWrite
| StepCkptDestroy | StepCkptInit | StepScrFree.

Definition step_of (e : Event) : Step :=
  match ev_call e with
  | ScrAlloc _ _ => StepScrAlloc
  | Close _ => StepClose
  | BufFmt _ _ => StepBufFmt
  | Open _ _ _ _ _ => StepOpen
  | DescWrite _ _ => StepDescWrite
  | CkptDestroy _ => StepCkptDestroy
  | CkptInit _ _ => StepCkptInit
  | ScrFree _ => StepScrFree
  end.

(** An event is the failure of a call: it has a return code and the code is
    not zero. *)
Definition failed (e : Event) : Prop :=
  match ev_ret e with
  | Some r => r <> 0
  | None => False
  end.

(** ** Reading a rendered number back *)

Definition digit_of (c : Ascii.ascii) : option Z :=
  let n := Z.of_N (Ascii.N_of_ascii c) in
  if (48 <=? n) && (n <=? 57) then Some (n - 48) else None.

(** The number a string of decimal digits stands for, continuing from [acc];
    [None] when a character is not a digit. *)
Fixpoint digits_value_from (acc : Z) (s : string) : option Z :=
  match s with
  | EmptyString => Some acc
  | String c rest =>
      match digit_of c with
      | Some d => digits_value_from (10 * acc + d) rest
      | None => None
      end
  end.

Definition digits_value (s : string) : option Z := digits_value_from 0 s.

(** ** Rollovers in a row *)

Section Driver.

Variable WT_FS_OPEN_CREATE : Z.

(** [n] calls of [__wt_block_tiered_newfile] one after the other on the same
    block; the log has, for each call, its return code and the object id the
    block holds when the call is back. *)
Fixpoint rollovers (n : nat) (session : WT_SESSION_IMPL) (block : WT_BLOCK)
    : prog (list (int * Z) * WT_SESSION_IMPL * WT_BLOCK) :=
  match n with
  | O => mret ([], session, block)
  | S m =>
      '(ret, session1, block1) ← __wt_block_tiered_newfile WT_FS_OPEN_CREATE session block;
      '(log, session2, block2) ← rollovers m session1 block1;
      mret ((ret, objectid block1) :: log, session2, block2)
  end.

End Driver.

(** The list [k+1; k+2; ...; k+n]. *)
Definition ids_from (k : Z) (n : nat) : list Z :=
  map (fun i => k + Z.of_nat i) (seq 1 n).

(** Every element is below the next one. *)
Fixpoint increasing (l : list Z) : Prop :=
  match l with
  | x :: (y :: _) as rest => x < y /\ increasing rest
  | _ => True
  end.

(** ** Reading the result of a run *)

Section Results.

Context {W : Type}.

Definition ret_of (r : int * WT_SESSION_IMPL * WT_BLOCK * W * list Event) : int :=
  let '(ret, _, _, _, _) := r in ret.

Definition block_of (r : int * WT_SESSION_IMPL * WT_BLOCK * W * list Event) : WT_BLOCK :=
  let '(_, _, b, _, _) := r in b.

Definition world_of (r : int * WT_SESSION_IMPL * WT_BLOCK * W * list Event) : W :=
  let '(_, _, _, w, _) := r in w.

Definition trace_of (r : int * WT_SESSION_IMPL * WT_BLOCK * W * list Event) : list Event :=
  let '(_, _, _, _, tr) := r in tr.

(** A run of flush: the part it shares with a run of the rollover, and what
    the caller finds in its cookie and cookie size. *)
Definition rollover_of
    (r : int * WT_SESSION_IMPL * WT_BLOCK * out_cell (list Z) * out_cell Z * W * list Event)
    : int * WT_SESSION_IMPL * WT_BLOCK * W * list Event :=
  let '(ret, s, b, _, _, w, tr) := r in (ret, s, b, w, tr).

Definition cookie_of
    (r : int * WT_SESSION_IMPL * WT_BLOCK * out_cell (list Z) * out_cell Z * W * list Event)
    : out_cell (list Z) * out_cell Z :=
  let '(_, _, _, c, sz, _, _) := r in (c, sz).

(** A run of rollovers in a row: the return codes and the ids. *)
Definition codes_of
    (r : list (int * Z) * WT_SESSION_IMPL * WT_BLOCK * W * list Event) : list int :=
  let '(log, _, _, _, _) := r in map fst log.

Definition ids_of
    (r : list (int * Z) * WT_SESSION_IMPL * WT_BLOCK * W * list Event) : list Z :=
  let '(log, _, _, _, _) := r in map snd log.

Definition trace_of_rollovers
    (r : list (int * Z) * WT_SESSION_IMPL * WT_BLOCK * W * list Event) : list Event :=
  let '(_, _, _, _, tr) := r in tr.

End Results.

(** ** A file system to run on *)

Module Sim.

(** Modelled from the spec: [__wt_scr_alloc], [__wt_close], [__wt_buf_fmt],
    [__wt_open], [__wt_desc_write], [__wt_block_ckpt_destroy],
    [__wt_block_ckpt_init] and [__wt_scr_free] are defined in other files.
    This world gives them the behaviour the design describes: object files
    by name with their size, open handles, and a plan of injected failures,
    one entry for each call that can fail, in the order the calls are made
    ([0] lets the call through; the plan exhausted, calls go through). *)
Record world := {
  files : gmap string Z;
  open_files : gmap N string;
  next_ref : N;
  plan : list int
}.

Definition next_code (w : world) : int * world :=
  match plan w with
  | [] => (0, w)
  | e :: rest =>
      (e, {| files := files w; open_files := open_files w;
             next_ref := next_ref w; plan := rest |})
  end.

Definition fresh_ref (w : world) : N * world :=
  (next_ref w,
   {| files := files w; open_files := open_files w;
      next_ref := N.succ (next_ref w); plan := plan w |}).

Definition set_files (f : gmap string Z) (w : world) : world :=
  {| files := f; open_files := open_files w; next_ref := next_ref w; plan := plan w |}.

Definition set_open_files (o : gmap N string) (w : world) : world :=
  {| files := files w; open_files := o; next_ref := next_ref w; plan := plan w |}.

Definition EBADF : int := 9.

(** Modelled from the spec: the behaviour of the calls, see [world].
    Closing releases the handle whatever the outcome; opening creates the
    file when it is not there and yields a new handle; the descriptor write
    puts [allocsize] bytes at the start of the file; destroying a checkpoint
    discards its contents and initialising one clears it. *)
Definition handler (c : Call) (w : world) : Resp c * world :=
  match c as c0 return Resp c0 * world with
  | ScrAlloc _ tmp =>
      let '(e, w) := next_code w in
      if e =? 0 then let '(r, w) := fresh_ref w in ((0, Some r), w)
      else ((e, tmp), w)
  | Close fhp =>
      let '(e, w) := next_code w in
      let w := match fhp with
               | Some h => set_open_files (delete h (open_files w)) w
               | None => w
               end in
      ((e, None), w)
  | BufFmt _ _ =>
      let '(e, w) := next_code w in (e, w)
  | Open _ filename _ _ _ =>
      let '(e, w) := next_code w in
      if e =? 0 then
        let w := match files w !! filename with
                 | Some _ => w
                 | None => set_files (<[filename := 0]> (files w)) w
                 end in
        let '(r, w) := fresh_ref w in
        ((0, Some r), set_open_files (<[r := filename]> (open_files w)) w)
      else ((e, None), w)
  | DescWrite fhv alloc =>
      let '(e, w) := next_code w in
      if e =? 0 then
        match fhv ≫= (fun h => open_files w !! h) with
        | Some nm =>
            let sz := default 0 (files w !! nm) in
            (0, set_files (<[nm := Z.max sz alloc]> (files w)) w)
        | None => (EBADF, w)
        end
      else (e, w)
  | CkptDestroy ci =>
      ({| root_objectid := root_objectid ci; ckpt_rest := [] |}, w)
  | CkptInit ci _ =>
      let '(e, w) := next_code w in
      if e =? 0 then ((0, {| root_objectid := 0; ckpt_rest := [] |}), w)
      else ((e, ci), w)
  | ScrFree _ => (None, w)
  end.

Definition WT_FS_OPEN_CREATE : Z := 4.
Definition EIO : int := 5.
Definition ENOSPC : int := 28.

(** A table [coll1] whose current object is number 3, open, four blocks long. *)
Definition coll1 : WT_BLOCK :=
  {| name := "coll1"; objectid := 3; fh := Some 1%N; size := 2048;
     allocsize := 512; file_flags := 0; has_objects := true;
     live := {| root_objectid := 3; ckpt_rest := [7; 11] |} |}.

Definition session0 : WT_SESSION_IMPL :=
  {| bucket_storage := None; conn_bstorage := None |}.

Definition disk (faults : list int) : world :=
  {| files := {[ "coll1.00000003" := 2048 ]};
     open_files := {[ 1%N := "coll1.00000003" ]};
     next_ref := 2; plan := faults |}.

(** The same table when it does not take part in tiering. *)
Definition untiered : WT_BLOCK := set_has_objects false coll1.

(** The same table two objects before the last id a [uint32_t] can hold. *)
Definition coll1_late : WT_BLOCK := set_objectid 4294967294 coll1.

Definition ckpt7 : WT_BLOCK_CKPT := {| root_objectid := 7; ckpt_rest := [2; 3] |}.

Definition ckpt_last : WT_BLOCK_CKPT :=
  {| root_objectid := 4294967295; ckpt_rest := [2; 3] |}.

(** Runs of the three functions on this file system. *)
Definition newfile_on (faults : list int) (b : WT_BLOCK) :=
  run handler (__wt_block_tiered_newfile WT_FS_OPEN_CREATE session0 b) (disk faults).

Definition flush_on (faults : list int) (b : WT_BLOCK)
    (cookie : out_cell (list Z)) (cookie_size : out_cell Z) :=
  run handler
    (__wt_block_tiered_flush WT_FS_OPEN_CREATE session0 b cookie cookie_size)
    (disk faults).

Definition load_on (faults : list int) (b : WT_BLOCK) (ci : WT_BLOCK_CKPT) :=
  run handler (__wt_block_tiered_load WT_FS_OPEN_CREATE session0 b ci) (disk faults).

Definition rollovers_on (faults : list int) (n : nat) (b : WT_BLOCK) :=
  run handler (rollovers WT_FS_OPEN_CREATE n session0 b) (disk faults).

End Sim.

(** ** How a rollover can end *)

Section Outcomes.

Variable WT_FS_OPEN_CREATE : Z.

(** The session while the open is under way. *)
Definition routed (s : WT_SESSION_IMPL) : WT_SESSION_IMPL :=
  set_bucket_storage
    (match bucket_storage s with None => conn_bstorage s | Some x => Some x end) s.

(** The session once the routing is released. *)
Definition released (s : WT_SESSION_IMPL) : WT_SESSION_IMPL :=
  set_bucket_storage (bucket_storage s) (routed s).

(** The block after the close and the increment. *)
Definition bumped (fh1 : option WT_FH) (b : WT_BLOCK) : WT_BLOCK :=
  set_objectid (u32 (objectid b + 1)) (set_fh fh1 b).

(** The calls of a rollover, in the order of the source text. *)
Definition ev_scr_alloc (r : int) (tmp : option WT_ITEM) : Event :=
  Ev (ScrAlloc 0 None) (r, tmp).
Definition ev_close (b : WT_BLOCK) (r : int) (fh1 : option WT_FH) : Event :=
  Ev (Close (fh b)) (r, fh1).
Definition ev_buf_fmt (b : WT_BLOCK) (tmp : option WT_ITEM) (r : int) : Event :=
  Ev (BufFmt tmp (fmt_object_name (name b) (u32 (objectid b + 1)))) r.
Definition ev_open (s : WT_SESSION_IMPL) (b : WT_BLOCK) (fh1 : option WT_FH)
    (r : int) (fh2 : option WT_FH) : Event :=
  Ev (Open (bucket_storage (routed s))
        (fmt_object_name (name b) (u32 (objectid b + 1)))
        WT_FS_OPEN_FILE_TYPE_DATA
        (Z.lor WT_FS_OPEN_CREATE (file_flags b)) fh1) (r, fh2).
Definition ev_desc_write (b : WT_BLOCK) (fh2 : option WT_FH) (r : int) : Event :=
  Ev (DescWrite fh2 (allocsize b)) r.
Definition ev_ckpt_destroy (b : WT_BLOCK) (ci1 : WT_BLOCK_CKPT) : Event :=
  Ev (CkptDestroy (live b)) ci1.
Definition ev_ckpt_init (ci1 : WT_BLOCK_CKPT) (r : int) (ci2 : WT_BLOCK_CKPT) : Event :=
  Ev (CkptInit ci1 "live") (r, ci2).
Definition ev_scr_free (tmp tmp' : option WT_ITEM) : Event :=
  Ev (ScrFree tmp) tmp'.

(** [newfile_outcome s b ret s' b' tr]: a run of the rollover on session [s]
    and block [b] that made the calls [tr] returns [ret] and leaves the
    session as [s'] and the block as [b'].  One constructor for each way out
    of the function. *)
Inductive newfile_outcome (s : WT_SESSION_IMPL) (b : WT_BLOCK)
    : int -> WT_SESSION_IMPL -> WT_BLOCK -> list Event -> Prop :=
| exit_scr_alloc e tmp tmp' :
    e <> 0 ->
    newfile_outcome s b e s b
      [ev_scr_alloc e tmp; ev_scr_free tmp tmp']
| exit_close tmp e fh1 tmp' :
    e <> 0 ->
    newfile_outcome s b e s (set_fh fh1 b)
      [ev_scr_alloc 0 tmp; ev_close b e fh1; ev_scr_free tmp tmp']
| exit_buf_fmt tmp fh1 e tmp' :
    e <> 0 ->
    newfile_outcome s b e s (bumped fh1 b)
      [ev_scr_alloc 0 tmp; ev_close b 0 fh1; ev_buf_fmt b tmp e;
       ev_scr_free tmp tmp']
| exit_open tmp fh1 e fh2 tmp' :
    e <> 0 ->
    newfile_outcome s b e (released s) (set_fh fh2 (bumped fh1 b))
      [ev_scr_alloc 0 tmp; ev_close b 0 fh1; ev_buf_fmt b tmp 0;
       ev_open s b fh1 e fh2; ev_scr_free tmp tmp']
| exit_desc_write tmp fh1 fh2 e tmp' :
    e <> 0 ->
    newfile_outcome s b e (released s) (set_fh fh2 (bumped fh1 b))
      [ev_scr_alloc 0 tmp; ev_close b 0 fh1; ev_buf_fmt b tmp 0;
       ev_open s b fh1 0 fh2; ev_desc_write b fh2 e; ev_scr_free tmp tmp']
| exit_end tmp fh1 fh2 ci1 e ci2 tmp' :
    newfile_outcome s b e (released s)
      (set_live ci2 (set_size (allocsize b) (set_fh fh2 (bumped fh1 b))))
      [ev_scr_alloc 0 tmp; ev_close b 0 fh1; ev_buf_fmt b tmp 0;
       ev_open s b fh1 0 fh2; ev_desc_write b fh2 0;
       ev_ckpt_destroy b ci1; ev_ckpt_init ci1 e ci2; ev_scr_free tmp tmp'].

End Outcomes.

(** ** Reading a list of calls *)

(** The calls of a complete rollover before the release of the scratch
    buffer, in the order of the source text. *)
Definition rollover_order : list Step :=
  [StepScrAlloc; StepClose; StepBufFmt; StepOpen; StepDescWrite;
   StepCkptDestroy; StepCkptInit].

(** The step [st] was made and returned [0]. *)
Definition succeeded (st : Step) (tr : list Event) : Prop :=
  exists e, In e tr /\ step_of e = st /\ ev_ret e = Some 0.

(** The file handle a close or an open stored through its pointer argument. *)
Definition ev_stored_fh (e : Event) : option (option WT_FH) :=
  match e with
  | Ev (Close _) r => Some (snd r)
  | Ev (Open _ _ _ _ _) r => Some (snd r)
  | _ => None
  end.

(** The file names [__wt_open] was asked for, in the order of the calls. *)
Fixpoint open_requests (tr : list Event) : list string :=
  match tr with
  | [] => []
  | e :: rest =>
      match ev_call e with
      | Open _ filename _ _ _ => filename :: open_requests rest
      | _ => open_requests rest
      end
  end.

(** ** Basic facts *)

Lemma released_id (s : WT_SESSION_IMPL) : released s = s.
Proof. destruct s; reflexivity. Qed.

Lemma u32_range (z : Z) : is_u32 (u32 z).
Proof.
  unfold is_u32, u32, UINT32_MAX.
  pose proof (Z.mod_pos_bound z (2 ^ 32) ltac:(lia)). lia.
Qed.

Lemma u32_small (z : Z) : is_u32 z -> u32 z = z.
Proof. unfold is_u32, u32, UINT32_MAX. intros H. apply Z.mod_small. lia. Qed.

Lemma u32_add_u32_l (z d : Z) : u32 (u32 z + d) = u32 (z + d).
Proof. unfold u32. apply Zplus_mod_idemp_l. Qed.

Lemma u32_succ_u32 (z : Z) : u32 (u32 z + 1) = u32 (z + 1).
Proof. unfold u32. apply Zplus_mod_idemp_l. Qed.

Section RunFacts.

Context {W : Type} (handler : forall c : Call, W -> Resp c * W).

Lemma run_bind {T U : Type} (p : prog T) (f : T -> prog U) (w : W) :
  run handler (bind p f) w =
  let '(x, w1, t1) := run handler p w in
  let '(y, w2, t2) := run handler (f x) w1 in
  (y, w2, t1 ++ t2).
Proof.
  revert w. induction p as [x | c k IH]; intros w; simpl.
  - destruct (run handler (f x) w) as [[y w2] t2]. reflexivity.
  - destruct (handler c w) as [r w1]. rewrite IH.
    destruct (run handler (k r) w1) as [[x w2] t1].
    destruct (run handler (f x) w2) as [[y w3] t2]. reflexivity.
Qed.

Variable WT_FS_OPEN_CREATE : Z.

(** Every run of [__wt_block_tiered_newfile] ends in one of the ways listed
    by [newfile_outcome]. *)
Lemma newfile_run (s : WT_SESSION_IMPL) (b : WT_BLOCK) (w : W) :
  let '(ret, s', b', _, tr) :=
    run handler (__wt_block_tiered_newfile WT_FS_OPEN_CREATE s b) w in
  newfile_outcome WT_FS_OPEN_CREATE s b ret s' b' tr.
Proof.
  unfold __wt_block_tiered_newfile. cbn.
  destruct (handler (ScrAlloc 0 None) w) as [[r0 tmp] w0]; cbn.
  destruct (Z.eqb_spec r0 0) as [-> | H0]; cbn.
  2: { destruct (handler (ScrFree tmp) w0) as [t' w']; cbn.
       apply exit_scr_alloc; assumption. }
  destruct (handler (Close (fh b)) w0) as [[r1 fh1] w1]; cbn.
  destruct (Z.eqb_spec r1 0) as [-> | H1]; cbn.
  2: { destruct (handler (ScrFree tmp) w1) as [t' w']; cbn.
       apply exit_close; assumption. }
  destruct (handler (BufFmt tmp _) w1) as [r2 w2]; cbn.
  destruct (Z.eqb_spec r2 0) as [-> | H2]; cbn.
  2: { destruct (handler (ScrFree tmp) w2) as [t' w']; cbn.
       apply (exit_buf_fmt _ s b tmp fh1 r2 t'); assumption. }
  destruct (handler (Open _ _ _ _ _) w2) as [[r3 fh2] w3]; cbn.
  destruct (Z.eqb_spec r3 0) as [-> | H3]; cbn.
  2: { destruct (handler (ScrFree tmp) w3) as [t' w']; cbn.
       apply (exit_open _ s b tmp fh1 r3 fh2 t'); assumption. }
  destruct (handler (DescWrite _ _) w3) as [r4 w4]; cbn.
  destruct (Z.eqb_spec r4 0) as [-> | H4]; cbn.
  2: { destruct (handler (ScrFree tmp) w4) as [t' w']; cbn.
       apply (exit_desc_write _ s b tmp fh1 fh2 r4 t'); assumption. }
  destruct (handler (CkptDestroy _) w4) as [ci1 w5]; cbn.
  destruct (handler (CkptInit _ _) w5) as [[r6 ci2] w6]; cbn.
  destruct (handler (ScrFree tmp) w6) as [t' w']; cbn.
  apply (exit_end _ s b tmp fh1 fh2 ci1 r6 ci2 t').
Qed.

End RunFacts.

(** ** Facts about the rendering of numbers *)

Lemma digit_of_digit_char (d : Z) :
  0 <= d <= 9 -> digit_of (digit_char d) = Some d.
Proof.
  intros H.
  assert (d = 0 \/ d = 1 \/ d = 2 \/ d = 3 \/ d = 4 \/
          d = 5 \/ d = 6 \/ d = 7 \/ d = 8 \/ d = 9) as Hd by lia.
  repeat (destruct Hd as [-> | Hd]; [ reflexivity | ]). subst. reflexivity.
Qed.

(** The loop has rounds enough for every value below [10 ^ rounds], and what
    it writes reads back as the value. *)
Lemma fmt_digits_value (n : nat) :
  forall v acc, 0 <= v < 10 ^ Z.of_nat n ->
    digits_value_from 0 (fmt_digits n v acc) = digits_value_from v acc.
Proof.
  induction n as [| n IH]; intros v acc Hv.
  - simpl in *. replace v with 0 by lia. reflexivity.
  - rewrite Nat2Z.inj_succ, Z.pow_succ_r in Hv by lia.
    assert (Hd : 0 <= v mod 10 <= 9) by (pose proof (Z.mod_pos_bound v 10); lia).
    assert (Hq : v = 10 * (v / 10) + v mod 10) by (apply Z.div_mod; lia).
    simpl. destruct (Z.eqb_spec (v / 10) 0) as [E | E].
    + simpl. rewrite digit_of_digit_char by exact Hd.
      f_equal. lia.
    + rewrite IH.
      * simpl. rewrite digit_of_digit_char by exact Hd. f_equal. lia.
      * split; [ apply Z.div_pos; lia | apply Z.div_lt_upper_bound; lia ].
Qed.

Lemma zeros_value (k : nat) (s : string) :
  digits_value_from 0 (zeros k +:+ s) = digits_value_from 0 s.
Proof. induction k as [| k IH]; simpl; [ reflexivity | exact IH ]. Qed.

Lemma fmt_0u_value (width : nat) (v : Z) :
  is_u32 v -> digits_value (fmt_0u width v) = Some v.
Proof.
  unfold is_u32, UINT32_MAX, digits_value, fmt_0u, fmt_u. intros Hv.
  rewrite zeros_value, fmt_digits_value; [ reflexivity | ].
  change (10 ^ Z.of_nat 10) with 10000000000. lia.
Qed.

Lemma string_length_app (s t : string) :
  String.length (s +:+ t) = (String.length s + String.length t)%nat.
Proof. induction s as [| c s IH]; simpl; [ reflexivity | rewrite IH; reflexivity ]. Qed.

Lemma zeros_length (k : nat) : String.length (zeros k) = k.
Proof. induction k as [| k IH]; simpl; [ reflexivity | rewrite IH; reflexivity ]. Qed.

Lemma fmt_digits_length_le (m : nat) :
  forall n v acc, (1 <= n)%nat -> 0 <= v < 10 ^ Z.of_nat n ->
    (String.length (fmt_digits m v acc) <= n + String.length acc)%nat.
Proof.
  induction m as [| m IH]; intros n v acc Hn Hv; simpl.
  - lia.
  - destruct (Z.eqb_spec (v / 10) 0) as [E | E]; simpl; [ lia | ].
    destruct n as [| [| n]]; [ lia | | ].
    + exfalso. apply E. apply Z.div_small. simpl in Hv. lia.
    + etransitivity; [ apply (IH (S n)); [ lia | ] | simpl; lia ].
      rewrite Nat2Z.inj_succ, Z.pow_succ_r in Hv by lia.
      split; [ apply Z.div_pos; lia | apply Z.div_lt_upper_bound; lia ].
Qed.

Lemma fmt_0u_length_min (width : nat) (v : Z) :
  (width <= String.length (fmt_0u width v))%nat.
Proof. unfold fmt_0u. rewrite string_length_app, zeros_length. lia. Qed.

(** No digit is wasted: a rendering of two digits or more starts with a digit
    that counts. *)
Lemma fmt_digits_length_tight (m : nat) :
  forall v acc, 0 <= v ->
    let len := String.length (fmt_digits m v acc) in
    (2 + String.length acc <= len)%nat ->
    10 ^ (Z.of_nat (len - String.length acc) - 1) <= v.
Proof.
  induction m as [| m IH]; intros v acc Hv len Hlen; subst len.
  - simpl in Hlen. lia.
  - simpl in *. destruct (Z.eqb_spec (v / 10) 0) as [E | E].
    + simpl in Hlen. lia.
    + assert (H10 : 10 <= v).
      { destruct (Z_lt_le_dec v 10) as [Hlt | Hge]; [ | exact Hge ].
        exfalso. apply E. apply Z.div_small. lia. }
      assert (Hq : 0 <= v / 10) by (apply Z.div_pos; lia).
      assert (Hmul : 10 * (v / 10) <= v) by (apply Z.mul_div_le; lia).
      set (acc' := String (digit_char (v mod 10)) acc) in *.
      set (len := String.length (fmt_digits m (v / 10) acc')) in *.
      destruct (le_lt_dec (2 + String.length acc') len) as [Hbig | Hsmall].
      * pose proof (IH (v / 10) acc' Hq Hbig) as Hlow. fold len in Hlow.
        subst acc'. simpl in Hlow, Hbig.
        replace (Z.of_nat (len - String.length acc) - 1)
          with (Z.succ (Z.of_nat (len - S (String.length acc)) - 1)) by lia.
        rewrite Z.pow_succ_r by lia. lia.
      * subst acc'. simpl in Hsmall.
        replace (Z.of_nat (len - String.length acc) - 1) with 1 by lia.
        exact H10.
Qed.

Lemma fmt_0u_length_tight (v : Z) :
  0 <= v ->
  (8 < String.length (fmt_0u 8 v))%nat ->
  10 ^ (Z.of_nat (String.length (fmt_0u 8 v)) - 1) <= v.
Proof.
  intros Hv. unfold fmt_0u. rewrite string_length_app, zeros_length. intros Hlen.
  replace (8 - String.length (fmt_u v) + String.length (fmt_u v))%nat
    with (String.length (fmt_u v)) in * by lia.
  pose proof (fmt_digits_length_tight 10 v EmptyString Hv) as Ht.
  fold (fmt_u v) in Ht. simpl in Ht.
  rewrite Nat.sub_0_r in Ht. apply Ht. lia.
Qed.

Lemma fmt_0u_length_8 (v : Z) :
  0 <= v < 10 ^ 8 -> String.length (fmt_0u 8 v) = 8%nat.
Proof.
  intros Hv. unfold fmt_0u. rewrite string_length_app, zeros_length.
  pose proof (fmt_digits_length_le 10 8 v EmptyString ltac:(lia) Hv) as Hle.
  fold (fmt_u v) in Hle. simpl in Hle. lia.
Qed.

(** ** Facts about consecutive ids *)

Lemma ids_from_succ (k : Z) (n : nat) :
  ids_from k (S n) = (k + 1) :: ids_from (k + 1) n.
Proof.
  unfold ids_from. cbn [seq map]. f_equal.
  rewrite <- (seq_shift n 1), map_map. apply map_ext. intros i. lia.
Qed.

Lemma ids_from_above (k : Z) (n : nat) : Forall (fun y => k < y) (ids_from k n).
Proof.
  unfold ids_from. apply Forall_forall. intros y Hy.
  apply list_elem_of_In, in_map_iff in Hy. destruct Hy as (i & <- & Hi).
  apply in_seq in Hi. lia.
Qed.

Lemma ids_from_increasing (n : nat) : forall k, increasing (k :: ids_from k n).
Proof.
  induction n as [| n IH]; intros k.
  - exact I.
  - rewrite ids_from_succ. split; [ lia | apply IH ].
Qed.

Lemma ids_from_NoDup (n : nat) : forall k, NoDup (k :: ids_from k n).
Proof.
  induction n as [| n IH]; intros k.
  - apply NoDup_singleton.
  - apply NoDup_cons_2.
    + intros Hin. pose proof (ids_from_above k (S n)) as Hall.
      rewrite Forall_forall in Hall. specialize (Hall k Hin). lia.
    + rewrite ids_from_succ. apply IH.
Qed.

Lemma u32_add_inj (k : Z) (i j : nat) :
  Z.of_nat i < 2 ^ 32 -> Z.of_nat j < 2 ^ 32 ->
  u32 (k + Z.of_nat i) = u32 (k + Z.of_nat j) -> i = j.
Proof.
  unfold u32. intros Hi Hj Heq.
  pose proof (Z.div_mod (k + Z.of_nat i) (2 ^ 32) ltac:(lia)) as Ei.
  pose proof (Z.div_mod (k + Z.of_nat j) (2 ^ 32) ltac:(lia)) as Ej.
  rewrite Heq in Ei.
  set (qi := (k + Z.of_nat i) / 2 ^ 32) in *.
  set (qj := (k + Z.of_nat j) / 2 ^ 32) in *.
  assert (Hd : Z.of_nat i - Z.of_nat j = 2 ^ 32 * (qi - qj)) by lia.
  assert (Hq : qi - qj = 0) by nia.
  lia.
Qed.

(** Modulo [2^32] the ids of up to [2^32] rollovers are still all different. *)
Lemma ids_modulo_NoDup (k : Z) (n : nat) :
  Z.of_nat n < 2 ^ 32 ->
  NoDup (map (fun i => u32 (k + Z.of_nat i)) (seq 1 n)).
Proof.
  intros Hn.
  change (NoDup ((fun i => u32 (k + Z.of_nat i)) <$> seq 1 n)).
  apply NoDup_fmap_2_strong; [ | apply NoDup_seq ].
  intros i j Hi Hj Heq.
  apply list_elem_of_In, in_seq in Hi. apply list_elem_of_In, in_seq in Hj.
  apply (u32_add_inj k i j); [ lia | lia | exact Heq ].
Qed.

Lemma ids_from_no_wrap (k : Z) (n : nat) :
  is_u32 k -> k + Z.of_nat n <= UINT32_MAX ->
  map (fun i => u32 (k + Z.of_nat i)) (seq 1 n) = ids_from k n.
Proof.
  intros Hk Hn. unfold ids_from. apply map_ext_in. intros i Hi.
  apply in_seq in Hi. apply u32_small. unfold is_u32 in *. lia.
Qed.

Section Claims.

Context {W : Type} (handler : forall c : Call, W -> Resp c * W).
Variable WT_FS_OPEN_CREATE : Z.

Local Notation "'newfile'" := (__wt_block_tiered_newfile WT_FS_OPEN_CREATE).
Local Notation "'flush'" := (__wt_block_tiered_flush WT_FS_OPEN_CREATE).
Local Notation "'load'" := (__wt_block_tiered_load WT_FS_OPEN_CREATE).

Lemma newfile_run_inv s b w ret s' b' w' tr :
  run handler (newfile s b) w = (ret, s', b', w', tr) ->
  newfile_outcome WT_FS_OPEN_CREATE s b ret s' b' tr.
Proof.
  intros H. pose proof (newfile_run handler WT_FS_OPEN_CREATE s b w) as O.
  rewrite H in O. exact O.
Qed.

(** A successful rollover went through every step: it is the last way out. *)
Lemma newfile_success s b w s' b' w' tr :
  run handler (newfile s b) w = (0, s', b', w', tr) ->
  exists tmp fh1 fh2 ci1 ci2 tmp',
    s' = s /\
    b' = set_live ci2 (set_size (allocsize b) (set_fh fh2 (bumped fh1 b))) /\
    tr = [ev_scr_alloc 0 tmp; ev_close b 0 fh1; ev_buf_fmt b tmp 0;
          ev_open WT_FS_OPEN_CREATE s b fh1 0 fh2; ev_desc_write b fh2 0;
          ev_ckpt_destroy b ci1; ev_ckpt_init ci1 0 ci2; ev_scr_free tmp tmp'].
Proof.
  intros H. apply newfile_run_inv in H.
  inversion H; subst; try congruence.
  exists tmp, fh1, fh2, ci1, ci2, tmp'. rewrite released_id. auto.
Qed.

(** *** Taking a list of calls apart *)

Lemma cons_eq_app_cons {A : Type} (x : A) (l pre : list A) (e : A) (post : list A) :
  x :: l = pre ++ e :: post ->
  (pre = [] /\ e = x /\ post = l) \/
  (exists pre', pre = x :: pre' /\ l = pre' ++ e :: post).
Proof.
  destruct pre as [| y pre']; simpl; intros H; injection H as -> ->.
  - left. auto.
  - right. exists pre'. auto.
Qed.

Ltac split_trace H :=
  lazymatch type of H with
  | [] = _ ++ _ :: _ => exfalso; exact (app_cons_not_nil _ _ _ H)
  | _ :: _ = _ ++ _ :: _ =>
      let pre' := fresh "pre" in
      apply cons_eq_app_cons in H;
      destruct H as [(-> & -> & ->) | (pre' & -> & H)];
      [ | split_trace H ]
  end.

Ltac no_failure :=
  repeat match goal with
         | |- Forall _ [] => constructor
         | |- Forall _ (_ :: _) => constructor; [ cbv; intuition | ]
         end.

(** C9: a failing call ends the rollover at once.  Whatever call of the
    rollover fails (the close, the formatting of the name, the open, the
    descriptor write; also the scratch allocation and the checkpoint
    initialisation), the code it returned is the code of the rollover, every
    call before it had succeeded, the only call made after it is the release
    of the scratch buffer, and no function is called twice: nothing is
    retried. *)
Theorem newfile_failure_aborts s b w ret s' b' w' tr pre e post :
  run handler (newfile s b) w = (ret, s', b', w', tr) ->
  tr = pre ++ e :: post ->
  failed e ->
  ev_ret e = Some ret /\
  ret <> 0 /\
  Forall (fun e' => ~ failed e') pre /\
  (exists tmp tmp', post = [ev_scr_free tmp tmp']) /\
  NoDup (map step_of tr).
Proof.
  intros Hrun Htr Hf. apply newfile_run_inv in Hrun.
  assert (Hnd : NoDup (map step_of tr)).
  { destruct Hrun; compute;
      repeat (apply NoDup_cons_2;
              [ rewrite ?elem_of_cons, elem_of_nil; intuition discriminate | ]);
      apply NoDup_nil_2. }
  split_and!; [ | | | | exact Hnd ]; clear Hnd;
    destruct Hrun; split_trace Htr; cbv in Hf; try tauto;
    first [ reflexivity | assumption | solve [ no_failure ]
          | do 2 eexists; reflexivity ].
Qed.


(** C10: the live checkpoint is left alone until the descriptor is written.
    Take any call [e] of a rollover, [pre] the calls before it.  When [e] is
    a failure of the scratch allocation, the close, the formatting, the open
    or the descriptor write, the block's [live] is what it was before the
    rollover and neither [__wt_block_ckpt_destroy] nor [__wt_block_ckpt_init]
    is called at all.  When [e] is the destroy or the initialisation of the
    checkpoint, a successful descriptor write of [allocsize] bytes is among
    the calls before it, and no call before it failed. *)
Theorem newfile_live_kept_until_descriptor s b w ret s' b' w' tr pre e post :
  run handler (newfile s b) w = (ret, s', b', w', tr) ->
  tr = pre ++ e :: post ->
  (failed e ->
   In (step_of e) [StepScrAlloc; StepClose; StepBufFmt; StepOpen; StepDescWrite] ->
   live b' = live b /\
   Forall (fun e' => step_of e' <> StepCkptDestroy /\ step_of e' <> StepCkptInit) tr) /\
  (step_of e = StepCkptDestroy \/ step_of e = StepCkptInit ->
   (exists fhv, In (Ev (DescWrite fhv (allocsize b)) 0) pre) /\
   Forall (fun e' => ~ failed e') pre).
Proof.
  intros Hrun Htr. apply newfile_run_inv in Hrun.
  split.
  - intros Hf Hstep.
    destruct Hrun; split_trace Htr; cbv in Hf; try tauto;
      cbv in Hstep; try (intuition discriminate);
      (split; [ reflexivity | ]);
      repeat (constructor; [ cbv; intuition discriminate | ]); constructor.
  - intros Hstep.
    destruct Hrun; split_trace Htr; cbv in Hstep; try (intuition discriminate);
      (split; [ eexists; cbn; unfold ev_desc_write; eauto 10 | solve [ no_failure ] ]).
Qed.

(** C7: after a successful rollover the block's [size] is [allocsize], which
    the rollover does not change; the descriptor of [allocsize] bytes has
    been written, with success, through the file handle the block now
    holds, and it is the only write of the rollover. *)
Theorem newfile_size_is_allocsize s b w ret s' b' w' tr :
  run handler (newfile s b) w = (ret, s', b', w', tr) ->
  ret = 0 ->
  size b' = allocsize b' /\
  allocsize b' = allocsize b /\
  In (Ev (DescWrite (fh b') (allocsize b)) 0) tr /\
  (forall e, In e tr -> step_of e = StepDescWrite ->
     e = Ev (DescWrite (fh b') (allocsize b)) 0).
Proof.
  intros Hrun ->. apply newfile_success in Hrun.
  destruct Hrun as (tmp & fh1 & fh2 & ci1 & ci2 & tmp' & -> & -> & ->).
  split_and!; [ reflexivity | reflexivity | cbn; unfold ev_desc_write; tauto | ].
  intros e He Hs. cbn in He.
  repeat (destruct He as [<- | He]; [ first [ reflexivity | discriminate Hs ] | ]).
  destruct He.
Qed.

Ltac same_call H := apply (f_equal ev_call) in H; cbn in H.

(** C6: the name of the new object.  Whenever a rollover gets to open a
    file, the name it asks for is the block's name, a dot, and the new
    object id (the old one plus one, as a [uint32_t]) printed with [%08u]:
    decimal digits that read back as the id, at least eight of them; exactly
    eight, zeros in front, as long as the id is below [10^8], and above that
    as many as the id has.  The block keeps its name and holds the new id. *)
Theorem newfile_object_name s b w ret s' b' w' tr bst fname ty flags fhp r :
  run handler (newfile s b) w = (ret, s', b', w', tr) ->
  In (Ev (Open bst fname ty flags fhp) r) tr ->
  let id := u32 (objectid b + 1) in
  fname = name b +:+ "." +:+ fmt_0u 8 id /\
  objectid b' = id /\
  name b' = name b /\
  digits_value (fmt_0u 8 id) = Some id /\
  (8 <= String.length (fmt_0u 8 id))%nat /\
  (id < 10 ^ 8 -> String.length (fmt_0u 8 id) = 8%nat) /\
  ((8 < String.length (fmt_0u 8 id))%nat ->
   10 ^ (Z.of_nat (String.length (fmt_0u 8 id)) - 1) <= id).
Proof.
  intros Hrun Hin id. apply newfile_run_inv in Hrun.
  assert (Hfmt : digits_value (fmt_0u 8 id) = Some id /\
                 (8 <= String.length (fmt_0u 8 id))%nat /\
                 (id < 10 ^ 8 -> String.length (fmt_0u 8 id) = 8%nat) /\
                 ((8 < String.length (fmt_0u 8 id))%nat ->
                  10 ^ (Z.of_nat (String.length (fmt_0u 8 id)) - 1) <= id)).
  { pose proof (u32_range (objectid b + 1)) as Hid. fold id in Hid.
    split_and!.
    - apply fmt_0u_value, Hid.
    - apply fmt_0u_length_min.
    - intros Hlt. apply fmt_0u_length_8. unfold is_u32 in Hid. lia.
    - apply fmt_0u_length_tight. unfold is_u32 in Hid. lia. }
  assert (Hopen : fname = name b +:+ "." +:+ fmt_0u 8 id /\
                  objectid b' = id /\ name b' = name b);
    [ | tauto ].
  clear Hfmt.
  destruct Hrun; cbn in Hin;
    repeat (destruct Hin as [Hin | Hin];
            [ same_call Hin; try discriminate Hin | ]);
    try contradiction;
    injection Hin as _ <- _ _ _; auto.
Qed.

(** C8: without objects, load does nothing.  It makes no call, returns [0]
    and hands back the session and the block, object id and file handle
    included, as they came. *)
Theorem load_without_objects s b ci w :
  has_objects b = false ->
  run handler (load s b ci) w = (0, s, b, w, []).
Proof.
  intros H. unfold __wt_block_tiered_load. rewrite H. reflexivity.
Qed.

Lemma load_run_with_objects s b ci w :
  has_objects b = true ->
  run handler (load s b ci) w =
  run handler (newfile s (set_objectid (root_objectid ci) b)) w.
Proof.
  intros H. unfold __wt_block_tiered_load. rewrite H.
  cbn -[__wt_block_tiered_newfile]. unfold mbind, prog_bind. rewrite run_bind.
  destruct (run handler _ w) as [[[[ret s1] b1] w1] tr1].
  destruct (Z.eqb_spec ret 0) as [-> | Hne]; cbn; rewrite app_nil_r; reflexivity.
Qed.

(** C3, amended: load seeds the object id from the checkpoint, then rolls
    over.  On a block with objects, loading is the rollover of the block
    with [objectid] set to the checkpoint's [root_objectid]; when it
    succeeds the block's object id is [root_objectid + 1] as a [uint32_t],
    that is [root_objectid + 1] below [UINT32_MAX] and [0] at [UINT32_MAX],
    and the new object is open: the open of its name succeeded, the block
    holds the handle the open gave and the descriptor was written through
    it. *)
Theorem load_seeds_then_rolls s b ci w ret s' b' w' tr :
  has_objects b = true ->
  is_u32 (root_objectid ci) ->
  run handler (load s b ci) w = (ret, s', b', w', tr) ->
  ret = 0 ->
  let r := root_objectid ci in
  run handler (newfile s (set_objectid r b)) w = (0, s', b', w', tr) /\
  objectid b' = u32 (r + 1) /\
  objectid b' = (if r =? UINT32_MAX then 0 else r + 1) /\
  (exists fh1,
     In (Ev (Open (bucket_storage (routed s))
               (fmt_object_name (name b) (objectid b'))
               WT_FS_OPEN_FILE_TYPE_DATA
               (Z.lor WT_FS_OPEN_CREATE (file_flags b)) fh1) (0, fh b')) tr) /\
  In (Ev (DescWrite (fh b') (allocsize b)) 0) tr.
Proof.
  intros Hobj Hr Hrun -> r. rewrite load_run_with_objects in Hrun by exact Hobj.
  fold r in Hrun. split; [ exact Hrun | ].
  apply newfile_success in Hrun.
  destruct Hrun as (tmp & fh1 & fh2 & ci1 & ci2 & tmp' & -> & -> & ->).
  cbn. split_and!.
  - reflexivity.
  - unfold is_u32, UINT32_MAX in *. unfold u32.
    destruct (Z.eqb_spec r 4294967295) as [-> | Hne]; [ reflexivity | ].
    apply Z.mod_small. fold r in Hr. lia.
  - exists fh1. unfold ev_open. cbn. tauto.
  - unfold ev_desc_write. cbn. tauto.
Qed.

(** C5, amended: flush is the rollover and nothing else.  A call of flush
    makes the calls of a rollover, returns its code and leaves the session
    and the block as the rollover does; so after a successful flush the
    block is on the next object id and holds the handle the open gave.  The
    caller's cookie and cookie size are never written: on every return,
    successful or not, they are what they were before the call. *)
Theorem flush_rolls_and_leaves_cookie s b c sz w ret s' b' c' sz' w' tr :
  run handler (flush s b c sz) w = (ret, s', b', c', sz', w', tr) ->
  run handler (newfile s b) w = (ret, s', b', w', tr) /\
  c' = c /\ sz' = sz /\
  (ret = 0 ->
   objectid b' = u32 (objectid b + 1) /\
   exists fh1, In (ev_open WT_FS_OPEN_CREATE s b fh1 0 (fh b')) tr).
Proof.
  unfold __wt_block_tiered_flush.
  cbn -[__wt_block_tiered_newfile]. unfold mbind, prog_bind. rewrite run_bind.
  destruct (run handler (newfile s b) w) as [[[[ret0 s0] b0] w0] tr0] eqn:Hrun.
  cbn. rewrite app_nil_r. intros [= <- <- <- <- <- <- <-].
  split_and!; try reflexivity.
  intros ->. apply newfile_success in Hrun.
  destruct Hrun as (tmp & fh1 & fh2 & ci1 & ci2 & tmp' & -> & -> & ->).
  split; [ reflexivity | ]. exists fh1. cbn. tauto.
Qed.

(** Going through a run call by call. *)
Ltac run_step :=
  cbn;
  match goal with
  | |- context [handler ?c ?w] =>
      let r := fresh "r" in
      let w1 := fresh "w" in
      destruct (handler c w) as [r w1]; cbn in r; cbn
  end;
  repeat match goal with
         | |- context [let (_, _) := ?r in _] => is_var r; destruct r; cbn
         | |- context [negb (?r =? 0)] => destruct (r =? 0); cbn
         end.

(** C1, amended: the rollover and flush do not look at [has_objects].  Run
    on a block with [has_objects] set to any value, they make the same
    calls, return the same code and leave the session, the world and the
    block as they do for the other value, [has_objects] itself being left as
    it was; so a successful call has moved the block to the next object id
    and to the handle the open gave, with [has_objects == false] as well.
    The test of [has_objects] is in load only. *)
Theorem flush_newfile_ignore_has_objects s b v c sz w :
  run handler (newfile s (set_has_objects v b)) w =
    (let '(ret, s', b', w', tr) := run handler (newfile s b) w in
     (ret, s', set_has_objects v b', w', tr)) /\
  run handler (flush s (set_has_objects v b) c sz) w =
    (let '(ret, s', b', w', tr) := run handler (newfile s b) w in
     (ret, s', set_has_objects v b', c, sz, w', tr)) /\
  (forall s' b' w' tr,
     run handler (newfile s (set_has_objects v b)) w = (0, s', b', w', tr) ->
     has_objects b' = v /\
     objectid b' = u32 (objectid b + 1) /\
     exists fh1, In (ev_open WT_FS_OPEN_CREATE s b fh1 0 (fh b')) tr).
Proof.
  assert (Hnew : run handler (newfile s (set_has_objects v b)) w =
            (let '(ret, s', b', w', tr) := run handler (newfile s b) w in
             (ret, s', set_has_objects v b', w', tr))).
  { unfold __wt_block_tiered_newfile. repeat run_step; reflexivity. }
  split_and!.
  - exact Hnew.
  - unfold __wt_block_tiered_flush.
    cbn -[__wt_block_tiered_newfile]. unfold mbind, prog_bind.
    rewrite run_bind, Hnew.
    destruct (run handler (newfile s b) w) as [[[[ret0 s0] b0] w0] tr0].
    cbn. rewrite app_nil_r. reflexivity.
  - intros s' b' w' tr Hrun. apply newfile_success in Hrun.
    destruct Hrun as (tmp & fh1 & fh2 & ci1 & ci2 & tmp' & -> & -> & ->).
    split_and!; [ reflexivity | reflexivity | ]. exists fh1. cbn. tauto.
Qed.

(** C4, amended: a rollover that failed in the open, then one that went
    through.  The failed rollover returns the code the open returned and
    keeps its increment: the block is left with the object id one higher, as
    a [uint32_t], and with the file handle as the open left it.  The next
    rollover of that block that succeeds, in whatever state the world is by
    then, leaves the id one higher again: two above the id before the failed
    attempt, modulo [2^32]. *)
Theorem newfile_retry_after_failed_open
    s b w ret s1 b1 w1 tr1 ev w2 s2 b2 w3 tr2 :
  is_u32 (objectid b) ->
  run handler (newfile s b) w = (ret, s1, b1, w1, tr1) ->
  In ev tr1 -> step_of ev = StepOpen -> failed ev ->
  run handler (newfile s1 b1) w2 = (0, s2, b2, w3, tr2) ->
  ev_ret ev = Some ret /\ ret <> 0 /\
  objectid b1 = u32 (objectid b + 1) /\
  objectid b2 = u32 (objectid b1 + 1) /\
  objectid b2 = u32 (objectid b + 2) /\
  (objectid b + 2 <= UINT32_MAX ->
   objectid b1 = objectid b + 1 /\ objectid b2 = objectid b + 2).
Proof.
  intros Hk Hrun1 Hin Hstep Hf Hrun2.
  apply newfile_success in Hrun2.
  destruct Hrun2 as (tmp2 & fh3 & fh4 & ci3 & ci4 & tmp2' & -> & -> & ->).
  apply newfile_run_inv in Hrun1.
  assert (Hb1 : ev_ret ev = Some ret /\ ret <> 0 /\
                objectid b1 = u32 (objectid b + 1)).
  { destruct Hrun1; cbn in Hin;
      repeat (destruct Hin as [<- | Hin];
              [ first [ discriminate Hstep | cbv in Hf; tauto
                      | split_and!; [ reflexivity | assumption | reflexivity ] ] | ]);
      contradiction. }
  destruct Hb1 as (Hret & Hne & Hid1).
  assert (Hid2 : objectid
            (set_live ci4 (set_size (allocsize b1) (set_fh fh4 (bumped fh3 b1)))) =
          u32 (objectid b1 + 1)) by reflexivity.
  split_and!; try assumption.
  - rewrite Hid2, Hid1, u32_succ_u32. f_equal. lia.
  - intros Hle. rewrite Hid2, Hid1.
    unfold is_u32, UINT32_MAX in *.
    rewrite (u32_small (objectid b + 1)) by (unfold is_u32, UINT32_MAX; lia).
    split; [ reflexivity | ].
    rewrite u32_small by (unfold is_u32, UINT32_MAX; lia). lia.
Qed.

Local Notation "'rollovers_'" := (rollovers WT_FS_OPEN_CREATE).

Lemma rollovers_run_succ n s b w :
  run handler (rollovers_ (S n) s b) w =
  (let '(ret, s1, b1, w1, tr1) := run handler (newfile s b) w in
   let '(log, s2, b2, w2, tr2) := run handler (rollovers_ n s1 b1) w1 in
   ((ret, objectid b1) :: log, s2, b2, w2, tr1 ++ tr2)).
Proof.
  cbn -[__wt_block_tiered_newfile]. unfold mbind, prog_bind. rewrite run_bind.
  destruct (run handler (newfile s b) w) as [[[[ret s1] b1] w1] tr1].
  fold (rollovers WT_FS_OPEN_CREATE). rewrite run_bind.
  destruct (run handler (rollovers_ n s1 b1) w1) as [[[[log s2] b2] w2] tr2].
  cbn. rewrite app_nil_r. reflexivity.
Qed.

(** The ids of [n] successful rollovers in a row, as the machine counts. *)
Lemma rollovers_ids n :
  forall s b w log s' b' w' tr,
    run handler (rollovers_ n s b) w = (log, s', b', w', tr) ->
    Forall (fun x => fst x = 0) log ->
    map snd log = map (fun i => u32 (objectid b + Z.of_nat i)) (seq 1 n).
Proof.
  induction n as [| n IH]; intros s b w log s' b' w' tr Hrun Hok.
  - cbn in Hrun. injection Hrun as <- _ _ _ _. reflexivity.
  - rewrite rollovers_run_succ in Hrun.
    destruct (run handler (newfile s b) w) as [[[[ret s1] b1] w1] tr1] eqn:H1.
    destruct (run handler (rollovers_ n s1 b1) w1) as [[[[l s2] b2] w2] tr2] eqn:H2.
    injection Hrun as <- _ _ _ _.
    apply Forall_cons in Hok. destruct Hok as [Hret Hok]. cbn in Hret. subst ret.
    apply newfile_success in H1.
    destruct H1 as (tmp & fh1 & fh2 & ci1 & ci2 & tmp' & -> & -> & ->).
    cbn [map snd seq]. f_equal.
    rewrite (IH _ _ _ _ _ _ _ _ H2 Hok).
    rewrite <- (seq_shift n 1), map_map. apply map_ext. intros i.
    cbn [objectid set_live set_size set_fh bumped set_objectid].
    rewrite u32_add_u32_l. f_equal. lia.
Qed.

(** C2, amended: the ids of rollovers in a row.  [n] successful rollovers
    of a block that starts at object id [k] leave, one after the other, the
    ids [k+1], [k+2], ..., [k+n] taken modulo [2^32], all different as long
    as [n] is below [2^32]; as long as [k+n] does not exceed [UINT32_MAX]
    these are [k+1], ..., [k+n] themselves, each id above the one before,
    starting above [k], and no id comes twice. *)
Theorem rollovers_ids_modulo n s b w log s' b' w' tr :
  is_u32 (objectid b) ->
  run handler (rollovers_ n s b) w = (log, s', b', w', tr) ->
  Forall (fun x => fst x = 0) log ->
  let k := objectid b in
  length log = n /\
  map snd log = map (fun i => u32 (k + Z.of_nat i)) (seq 1 n) /\
  (Z.of_nat n < 2 ^ 32 -> NoDup (map snd log)) /\
  (k + Z.of_nat n <= UINT32_MAX ->
   map snd log = ids_from k n /\
   increasing (k :: map snd log) /\
   NoDup (k :: map snd log)).
Proof.
  intros Hk Hrun Hok k.
  pose proof (rollovers_ids n s b w log s' b' w' tr Hrun Hok) as Hids.
  fold k in Hids. split_and!.
  - rewrite <- (length_map snd log), Hids, length_map, length_seq. reflexivity.
  - exact Hids.
  - intros Hn. rewrite Hids. apply ids_modulo_NoDup, Hn.
  - intros Hle. rewrite Hids, ids_from_no_wrap by assumption.
    split_and!; [ reflexivity | apply ids_from_increasing | apply ids_from_NoDup ].
Qed.

End Claims.

(** ** The theorems at work on the simulated file system *)

(** The open of [coll1.00000004] fails with [EIO]: the rollover returns
    [EIO] after four calls and the release of the scratch buffer. *)
Lemma newfile_failure_aborts_witness :
  exists s' b' w' pre e post,
    Sim.newfile_on [0; 0; 0; Sim.EIO] Sim.coll1 = (Sim.EIO, s', b', w', pre ++ e :: post) /\
    step_of e = StepOpen /\ failed e /\
    ev_ret e = Some Sim.EIO /\ length pre = 3%nat /\
    post = [ev_scr_free (Some 2%N) None].
Proof.
  let r := eval vm_compute in (Sim.newfile_on [0; 0; 0; Sim.EIO] Sim.coll1) in
  lazymatch r with
  | (_, ?s', ?b', ?w', ?e1 :: ?e2 :: ?e3 :: ?e4 :: ?post) =>
      exists s', b', w', [e1; e2; e3], e4, post;
      assert (Hrun : Sim.newfile_on [0; 0; 0; Sim.EIO] Sim.coll1 =
                     (Sim.EIO, s', b', w', [e1; e2; e3] ++ e4 :: post))
        by (vm_compute; reflexivity);
      assert (Hf : failed e4) by (vm_compute; discriminate);
      pose proof (newfile_failure_aborts Sim.handler Sim.WT_FS_OPEN_CREATE
                    _ _ _ _ _ _ _ _ _ _ _ Hrun eq_refl Hf) as (Hret & _ & _ & _ & _);
      split_and!;
        [ exact Hrun | reflexivity | exact Hf | exact Hret | reflexivity | reflexivity ]
  end.
Defined.

(** The descriptor write fails for want of space: [live] is as before and
    the checkpoint was not touched.  In a rollover that goes through, the
    destroy of the checkpoint comes after the successful descriptor write. *)
Lemma newfile_live_kept_until_descriptor_witness :
  (exists s' b' w' pre e post,
     Sim.newfile_on [0; 0; 0; 0; Sim.ENOSPC] Sim.coll1 =
       (Sim.ENOSPC, s', b', w', pre ++ e :: post) /\
     failed e /\ step_of e = StepDescWrite /\
     live b' = live Sim.coll1) /\
  (exists s' b' w' pre e post,
     Sim.newfile_on [] Sim.coll1 = (0, s', b', w', pre ++ e :: post) /\
     step_of e = StepCkptDestroy /\
     In (Ev (DescWrite (Some 3%N) 512) 0) pre).
Proof.
  split.
  - let r := eval vm_compute in (Sim.newfile_on [0; 0; 0; 0; Sim.ENOSPC] Sim.coll1) in
    lazymatch r with
    | (_, ?s', ?b', ?w', ?e1 :: ?e2 :: ?e3 :: ?e4 :: ?e5 :: ?post) =>
        exists s', b', w', [e1; e2; e3; e4], e5, post;
        assert (Hrun : Sim.newfile_on [0; 0; 0; 0; Sim.ENOSPC] Sim.coll1 =
                       (Sim.ENOSPC, s', b', w', [e1; e2; e3; e4] ++ e5 :: post))
          by (vm_compute; reflexivity);
        assert (Hf : failed e5) by (vm_compute; discriminate);
        assert (Hs : In (step_of e5)
                       [StepScrAlloc; StepClose; StepBufFmt; StepOpen; StepDescWrite])
          by (cbn; tauto);
        pose proof (newfile_live_kept_until_descriptor Sim.handler Sim.WT_FS_OPEN_CREATE
                      _ _ _ _ _ _ _ _ _ _ _ Hrun eq_refl) as (Hlive & _);
        destruct (Hlive Hf Hs) as (Hl & _);
        split_and!; [ exact Hrun | exact Hf | reflexivity | exact Hl ]
    end.
  - let r := eval vm_compute in (Sim.newfile_on [] Sim.coll1) in
    lazymatch r with
    | (_, ?s', ?b', ?w', ?e1 :: ?e2 :: ?e3 :: ?e4 :: ?e5 :: ?e6 :: ?post) =>
        exists s', b', w', [e1; e2; e3; e4; e5], e6, post;
        assert (Hrun : Sim.newfile_on [] Sim.coll1 =
                       (0, s', b', w', [e1; e2; e3; e4; e5] ++ e6 :: post))
          by (vm_compute; reflexivity);
        pose proof (newfile_live_kept_until_descriptor Sim.handler Sim.WT_FS_OPEN_CREATE
                      _ _ _ _ _ _ _ _ _ _ _ Hrun eq_refl) as (_ & Hckpt);
        destruct (Hckpt (or_introl eq_refl)) as ((fhv & Hin) & _);
        split_and!; [ exact Hrun | reflexivity | cbn; tauto ]
    end.
Defined.

(** Scenario A: [coll1] at object 3 rolls over to [coll1.00000004], a file
    of [allocsize] bytes. *)
Lemma newfile_size_is_allocsize_witness :
  ret_of (Sim.newfile_on [] Sim.coll1) = 0 /\
  size (block_of (Sim.newfile_on [] Sim.coll1)) = 512 /\
  allocsize (block_of (Sim.newfile_on [] Sim.coll1)) = 512 /\
  Sim.files (world_of (Sim.newfile_on [] Sim.coll1)) !! "coll1.00000004" = Some 512.
Proof.
  destruct (Sim.newfile_on [] Sim.coll1) as [[[[ret s'] b'] w'] tr] eqn:Hrun.
  assert (Hret : ret = 0) by (vm_compute in Hrun; congruence).
  destruct (newfile_size_is_allocsize Sim.handler Sim.WT_FS_OPEN_CREATE
              _ _ _ _ _ _ _ _ Hrun Hret) as (Hsz & Hal & _).
  cbn [ret_of block_of world_of].
  split_and!; [ exact Hret | rewrite Hsz, Hal; reflexivity | rewrite Hal; reflexivity | ].
  vm_compute in Hrun. injection Hrun as _ _ _ <- _. vm_compute. reflexivity.
Defined.

(** The open of Scenario A asks for [coll1.00000004]. *)
Lemma newfile_object_name_witness :
  In (Ev (Open None "coll1.00000004" WT_FS_OPEN_FILE_TYPE_DATA 4 None) (0, Some 3%N))
     (trace_of (Sim.newfile_on [] Sim.coll1)) /\
  "coll1.00000004" = name Sim.coll1 +:+ "." +:+ fmt_0u 8 (u32 (objectid Sim.coll1 + 1)) /\
  objectid (block_of (Sim.newfile_on [] Sim.coll1)) = 4 /\
  digits_value "00000004" = Some 4.
Proof.
  destruct (Sim.newfile_on [] Sim.coll1) as [[[[ret s'] b'] w'] tr] eqn:Hrun.
  assert (Hin : In (Ev (Open None "coll1.00000004" WT_FS_OPEN_FILE_TYPE_DATA 4 None)
                      (0, Some 3%N)) tr).
  { vm_compute in Hrun. injection Hrun as _ _ _ _ <-. cbn. tauto. }
  destruct (newfile_object_name Sim.handler Sim.WT_FS_OPEN_CREATE
              _ _ _ _ _ _ _ _ _ _ _ _ _ _ Hrun Hin) as (Hname & Hid & _ & Hval & _).
  cbn [trace_of block_of].
  split_and!; [ exact Hin | exact Hname | rewrite Hid; reflexivity | exact Hval ].
Defined.

(** Loading into a table without objects. *)
Lemma load_without_objects_witness :
  has_objects Sim.untiered = false /\
  Sim.load_on [] Sim.untiered Sim.ckpt7 =
    (0, Sim.session0, Sim.untiered, Sim.disk [], []).
Proof.
  split; [ reflexivity | ].
  apply (load_without_objects Sim.handler Sim.WT_FS_OPEN_CREATE). reflexivity.
Defined.

(** Scenario B: a checkpoint with its root in object 7; after the load the
    block is on object 8 and [coll1.00000008] is there with its header. *)
Lemma load_seeds_then_rolls_witness :
  ret_of (Sim.load_on [] Sim.coll1 Sim.ckpt7) = 0 /\
  objectid (block_of (Sim.load_on [] Sim.coll1 Sim.ckpt7)) = 8 /\
  Sim.files (world_of (Sim.load_on [] Sim.coll1 Sim.ckpt7)) !! "coll1.00000008" = Some 512.
Proof.
  destruct (Sim.load_on [] Sim.coll1 Sim.ckpt7) as [[[[ret s'] b'] w'] tr] eqn:Hrun.
  assert (Hret : ret = 0) by (vm_compute in Hrun; congruence).
  assert (Hr : is_u32 (root_objectid Sim.ckpt7)) by (vm_compute; split; discriminate).
  destruct (load_seeds_then_rolls Sim.handler Sim.WT_FS_OPEN_CREATE
              Sim.session0 Sim.coll1 Sim.ckpt7 _ _ _ _ _ _ eq_refl Hr Hrun Hret)
    as (_ & _ & Hid & _).
  cbn [ret_of block_of world_of].
  split_and!; [ exact Hret | exact Hid | ].
  vm_compute in Hrun. injection Hrun as _ _ _ <- _. vm_compute. reflexivity.
Defined.

(** Scenario D, from object 3: a flush is a rollover to object 4, and the
    caller's cookie is as it was. *)
Lemma flush_rolls_and_leaves_cookie_witness :
  rollover_of (Sim.flush_on [] Sim.coll1 (Some [1; 2]) (Some 2)) =
    Sim.newfile_on [] Sim.coll1 /\
  cookie_of (Sim.flush_on [] Sim.coll1 (Some [1; 2]) (Some 2)) = (Some [1; 2], Some 2) /\
  objectid (block_of (Sim.newfile_on [] Sim.coll1)) = 4.
Proof.
  destruct (Sim.flush_on [] Sim.coll1 (Some [1; 2]) (Some 2))
    as [[[[[[ret s'] b'] c'] sz'] w'] tr] eqn:Hrun.
  destruct (flush_rolls_and_leaves_cookie Sim.handler Sim.WT_FS_OPEN_CREATE
              _ _ _ _ _ _ _ _ _ _ _ _ Hrun) as (Hnew & -> & -> & Hok).
  assert (Hret : ret = 0) by (vm_compute in Hrun; congruence).
  destruct (Hok Hret) as (Hid & _).
  unfold Sim.newfile_on. rewrite Hnew. cbn [rollover_of cookie_of block_of].
  split_and!; [ reflexivity | reflexivity | rewrite Hid; reflexivity ].
Defined.

(** The rollover of the table without objects is the rollover of the table
    with them. *)
Lemma flush_newfile_ignore_has_objects_witness :
  Sim.newfile_on [] Sim.untiered =
    (let '(ret, s', b', w', tr) := Sim.newfile_on [] Sim.coll1 in
     (ret, s', set_has_objects false b', w', tr)) /\
  objectid (block_of (Sim.newfile_on [] Sim.untiered)) = 4.
Proof.
  destruct (flush_newfile_ignore_has_objects Sim.handler Sim.WT_FS_OPEN_CREATE
              Sim.session0 Sim.coll1 false None None (Sim.disk []))
    as (Hnew & _ & Hok).
  split; [ exact Hnew | ].
  destruct (Sim.newfile_on [] Sim.untiered) as [[[[ret s'] b'] w'] tr] eqn:Hrun.
  assert (Hret : ret = 0) by (vm_compute in Hrun; congruence). subst ret.
  destruct (Hok _ _ _ _ Hrun) as (_ & Hid & _).
  cbn [block_of]. rewrite Hid. reflexivity.
Defined.

(** Scenario C: the open fails with [EIO] and leaves the block on object 4;
    the retry, on the world the failure left, goes through and leaves the
    block on object 5. *)
Lemma newfile_retry_after_failed_open_witness :
  exists s1 b1 w1 tr1 e s2 b2 w2 tr2,
    Sim.newfile_on [0; 0; 0; Sim.EIO] Sim.coll1 = (Sim.EIO, s1, b1, w1, tr1) /\
    In e tr1 /\ step_of e = StepOpen /\ failed e /\
    run Sim.handler (__wt_block_tiered_newfile Sim.WT_FS_OPEN_CREATE s1 b1) w1 =
      (0, s2, b2, w2, tr2) /\
    objectid Sim.coll1 = 3 /\ objectid b1 = 4 /\ objectid b2 = 5 /\ fh b1 = None.
Proof.
  let r := eval vm_compute in (Sim.newfile_on [0; 0; 0; Sim.EIO] Sim.coll1) in
  lazymatch r with
  | (_, ?s1, ?b1, ?w1, ?e1 :: ?e2 :: ?e3 :: ?e4 :: ?post) =>
      let r2 := eval vm_compute in
        (run Sim.handler (__wt_block_tiered_newfile Sim.WT_FS_OPEN_CREATE s1 b1) w1) in
      lazymatch r2 with
      | (_, ?s2, ?b2, ?w2, ?tr2) =>
          exists s1, b1, w1, (e1 :: e2 :: e3 :: e4 :: post), e4, s2, b2, w2, tr2;
          assert (Hrun1 : Sim.newfile_on [0; 0; 0; Sim.EIO] Sim.coll1 =
                          (Sim.EIO, s1, b1, w1, e1 :: e2 :: e3 :: e4 :: post))
            by (vm_compute; reflexivity);
          assert (Hrun2 : run Sim.handler
                            (__wt_block_tiered_newfile Sim.WT_FS_OPEN_CREATE s1 b1) w1 =
                          (0, s2, b2, w2, tr2))
            by (vm_compute; reflexivity);
          assert (Hin : In e4 (e1 :: e2 :: e3 :: e4 :: post)) by (cbn; tauto);
          assert (Hf : failed e4) by (vm_compute; discriminate);
          assert (Hk : is_u32 (objectid Sim.coll1)) by (vm_compute; split; discriminate);
          assert (Hle : objectid Sim.coll1 + 2 <= UINT32_MAX) by (vm_compute; discriminate);
          destruct (newfile_retry_after_failed_open Sim.handler Sim.WT_FS_OPEN_CREATE
                      _ _ _ _ _ _ _ _ _ _ _ _ _ _ Hk Hrun1 Hin eq_refl Hf Hrun2)
            as (_ & _ & _ & _ & _ & Hexact);
          destruct (Hexact Hle) as (Hid1 & Hid2);
          split_and!;
            [ exact Hrun1 | exact Hin | reflexivity | exact Hf | exact Hrun2
            | reflexivity | exact Hid1 | exact Hid2 | reflexivity ]
      end
  end.
Defined.

(** Three rollovers from object 3 leave the ids 4, 5 and 6. *)
Lemma rollovers_ids_modulo_witness :
  codes_of (Sim.rollovers_on [] 3 Sim.coll1) = [0; 0; 0] /\
  ids_of (Sim.rollovers_on [] 3 Sim.coll1) = [4; 5; 6] /\
  increasing (3 :: ids_of (Sim.rollovers_on [] 3 Sim.coll1)).
Proof.
  destruct (Sim.rollovers_on [] 3 Sim.coll1) as [[[[log s'] b'] w'] tr] eqn:Hrun.
  assert (Hlog : log = [(0, 4); (0, 5); (0, 6)])
    by (vm_compute in Hrun; injection Hrun as <- _ _ _ _; reflexivity).
  assert (Hcodes : map fst log = [0; 0; 0]) by (rewrite Hlog; reflexivity).
  assert (Hok : Forall (fun x => fst x = 0) log)
    by (rewrite Hlog; repeat constructor).
  assert (Hk : is_u32 (objectid Sim.coll1)) by (vm_compute; split; discriminate).
  destruct (rollovers_ids_modulo Sim.handler Sim.WT_FS_OPEN_CREATE
              _ _ _ _ _ _ _ _ _ Hk Hrun Hok) as (_ & _ & _ & Hexact).
  destruct Hexact as (Hids & Hinc & _); [ vm_compute; discriminate | ].
  cbn [codes_of ids_of].
  split_and!; [ exact Hcodes | rewrite Hids; reflexivity | exact Hinc ].
Defined.

(** ** Where the code departs from the specification *)

(** C1 as stated fails: on a block with [has_objects == false] the rollover
    succeeds, moves the block from object 3 to object 4, closes its file
    handle and opens another, and creates the file [coll1.00000004]; flush
    does the same. *)
Lemma rollover_not_inert_without_objects :
  has_objects Sim.untiered = false /\
  ret_of (Sim.newfile_on [] Sim.untiered) = 0 /\
  objectid Sim.untiered = 3 /\
  objectid (block_of (Sim.newfile_on [] Sim.untiered)) = 4 /\
  fh Sim.untiered = Some 1%N /\
  fh (block_of (Sim.newfile_on [] Sim.untiered)) = Some 3%N /\
  Sim.files (Sim.disk []) !! "coll1.00000004" = None /\
  Sim.files (world_of (Sim.newfile_on [] Sim.untiered)) !! "coll1.00000004" = Some 512 /\
  rollover_of (Sim.flush_on [] Sim.untiered None None) = Sim.newfile_on [] Sim.untiered.
Proof. vm_compute. repeat split. Qed.

(** C2 as stated fails: two successful rollovers from object id [2^32 - 2]
    leave the ids [2^32 - 1] and then [0], not [2^32 - 1] and [2^32], and
    the second id is below the first. *)
Lemma rollovers_wrap_around :
  is_u32 (objectid Sim.coll1_late) /\
  codes_of (Sim.rollovers_on [] 2 Sim.coll1_late) = [0; 0] /\
  ids_of (Sim.rollovers_on [] 2 Sim.coll1_late) = [4294967295; 0] /\
  ids_of (Sim.rollovers_on [] 2 Sim.coll1_late) <> ids_from (objectid Sim.coll1_late) 2 /\
  ~ increasing (objectid Sim.coll1_late :: ids_of (Sim.rollovers_on [] 2 Sim.coll1_late)).
Proof.
  assert (Hids : ids_of (Sim.rollovers_on [] 2 Sim.coll1_late) = [4294967295; 0])
    by (vm_compute; reflexivity).
  split_and!.
  - vm_compute. split; discriminate.
  - vm_compute. reflexivity.
  - exact Hids.
  - rewrite Hids. vm_compute. discriminate.
  - rewrite Hids. cbn. lia.
Qed.

(** C3 as stated fails: loading a checkpoint whose root is in object
    [2^32 - 1] succeeds and leaves the block on object [0], which is not
    [root_objectid + 1]. *)
Lemma load_wraps_at_last_id :
  has_objects Sim.coll1 = true /\
  root_objectid Sim.ckpt_last = UINT32_MAX /\
  ret_of (Sim.load_on [] Sim.coll1 Sim.ckpt_last) = 0 /\
  objectid (block_of (Sim.load_on [] Sim.coll1 Sim.ckpt_last)) = 0 /\
  objectid (block_of (Sim.load_on [] Sim.coll1 Sim.ckpt_last)) <>
    root_objectid Sim.ckpt_last + 1.
Proof.
  assert (Hid : objectid (block_of (Sim.load_on [] Sim.coll1 Sim.ckpt_last)) = 0)
    by (vm_compute; reflexivity).
  split_and!; [ reflexivity | reflexivity | vm_compute; reflexivity | exact Hid | ].
  rewrite Hid. vm_compute. discriminate.
Qed.

(** C4 as stated fails: from object id [2^32 - 2] a rollover whose open
    fails leaves the block on [2^32 - 1]; the retry succeeds and leaves it on
    [0], which is one more neither than the id before the failed attempt nor
    than the id the failed attempt left. *)
Lemma retry_wraps_at_last_id :
  let r1 := Sim.newfile_on [0; 0; 0; Sim.EIO] Sim.coll1_late in
  let r2 := run Sim.handler
              (__wt_block_tiered_newfile Sim.WT_FS_OPEN_CREATE Sim.session0 (block_of r1))
              (world_of r1) in
  ret_of r1 = Sim.EIO /\
  trace_of r1 !! 3%nat =
    Some (Ev (Open None "coll1.4294967295" WT_FS_OPEN_FILE_TYPE_DATA 4 None)
            (Sim.EIO, None)) /\
  objectid Sim.coll1_late = 4294967294 /\
  objectid (block_of r1) = 4294967295 /\
  ret_of r2 = 0 /\
  objectid (block_of r2) = 0 /\
  objectid (block_of r2) <> objectid Sim.coll1_late + 1 /\
  objectid (block_of r2) <> objectid (block_of r1) + 1.
Proof.
  intros r1 r2.
  assert (H1 : objectid (block_of r1) = 4294967295) by (vm_compute; reflexivity).
  assert (H2 : objectid (block_of r2) = 0) by (vm_compute; reflexivity).
  split_and!; try (vm_compute; reflexivity); try assumption.
  - rewrite H2. vm_compute. discriminate.
  - rewrite H2, H1. vm_compute. discriminate.
Qed.

(** C5 as stated fails: a successful flush called with nothing yet in the
    caller's cookie and cookie size returns with nothing in them, and a
    failed flush called with something in them returns with it still there. *)
Lemma flush_writes_no_cookie :
  ret_of (rollover_of (Sim.flush_on [] Sim.coll1 None None)) = 0 /\
  cookie_of (Sim.flush_on [] Sim.coll1 None None) = (None, None) /\
  ret_of (rollover_of (Sim.flush_on [Sim.EIO] Sim.coll1 (Some [1; 2]) (Some 2))) = Sim.EIO /\
  cookie_of (Sim.flush_on [Sim.EIO] Sim.coll1 (Some [1; 2]) (Some 2)) = (Some [1; 2], Some 2).
Proof. vm_compute. repeat split. Qed.

(** ** More about the rollover *)

Lemma land_lor_absorb (a b : Z) : Z.land (Z.lor a b) a = a.
Proof.
  apply Z.bits_inj'. intros n Hn.
  rewrite Z.land_spec, Z.lor_spec. destruct (Z.testbit a n); simpl.
  - reflexivity.
  - apply andb_false_r.
Qed.

Lemma open_requests_app (t1 t2 : list Event) :
  open_requests (t1 ++ t2) = open_requests t1 ++ open_requests t2.
Proof.
  induction t1 as [| e t1 IH]; simpl; [ reflexivity | ].
  destruct (ev_call e); rewrite IH; reflexivity.
Qed.

Section Rollover.

Context {W : Type} (handler : forall c : Call, W -> Resp c * W).
Variable WT_FS_OPEN_CREATE : Z.

Local Notation "'newfile'" := (__wt_block_tiered_newfile WT_FS_OPEN_CREATE).
Local Notation "'flush'" := (__wt_block_tiered_flush WT_FS_OPEN_CREATE).
Local Notation "'load'" := (__wt_block_tiered_load WT_FS_OPEN_CREATE).

Ltac take_apart H :=
  lazymatch type of H with
  | [] = _ ++ _ :: _ => exfalso; exact (app_cons_not_nil _ _ _ H)
  | _ :: _ = _ ++ _ :: _ =>
      let pre' := fresh "pre" in
      apply cons_eq_app_cons in H;
      destruct H as [(-> & -> & ->) | (pre' & -> & H)];
      [ | take_apart H ]
  end.

Ltac all_ok :=
  repeat match goal with
         | |- Forall _ [] => constructor
         | |- Forall _ (_ :: _) => constructor; [ cbv; intuition discriminate | ]
         end.

(** Going through the members of a list of calls. *)
Ltac each_member H tac :=
  cbn in H;
  repeat (destruct H as [H | H]; [ tac H | ]);
  try contradiction.

(** X1: the scratch buffer is released on every way out.  Every run of the
    rollover starts with the allocation of the scratch buffer and ends with
    the release of the very buffer the allocation gave; in between the
    buffer is neither allocated again nor released. *)
Theorem newfile_scratch_released s b w ret s' b' w' tr :
  run handler (newfile s b) w = (ret, s', b', w', tr) ->
  exists r tmp mid tmp',
    tr = ev_scr_alloc r tmp :: mid ++ [ev_scr_free tmp tmp'] /\
    Forall (fun e => step_of e <> StepScrAlloc /\ step_of e <> StepScrFree) mid.
Proof.
  intros Hrun. apply newfile_run_inv in Hrun.
  destruct Hrun.
  - exists e, tmp, [], tmp'. split; [ reflexivity | all_ok ].
  - exists 0, tmp, [ev_close b e fh1], tmp'. split; [ reflexivity | all_ok ].
  - exists 0, tmp, [ev_close b 0 fh1; ev_buf_fmt b tmp e], tmp'.
    split; [ reflexivity | all_ok ].
  - exists 0, tmp,
      [ev_close b 0 fh1; ev_buf_fmt b tmp 0; ev_open WT_FS_OPEN_CREATE s b fh1 e fh2],
      tmp'.
    split; [ reflexivity | all_ok ].
  - exists 0, tmp,
      [ev_close b 0 fh1; ev_buf_fmt b tmp 0; ev_open WT_FS_OPEN_CREATE s b fh1 0 fh2;
       ev_desc_write b fh2 e], tmp'.
    split; [ reflexivity | all_ok ].
  - exists 0, tmp,
      [ev_close b 0 fh1; ev_buf_fmt b tmp 0; ev_open WT_FS_OPEN_CREATE s b fh1 0 fh2;
       ev_desc_write b fh2 0; ev_ckpt_destroy b ci1; ev_ckpt_init ci1 e ci2], tmp'.
    split; [ reflexivity | all_ok ].
Qed.

(** X2: the calls come in the order of the source and stop at the first
    failure.  Any call of a rollover other than the release of the scratch
    buffer is made only after every call before it has succeeded, and the
    calls up to it are an initial part, without a gap, of: allocate, close,
    format, open, write the descriptor, destroy and initialise the
    checkpoint.  So the old file is closed, with success, before the new one
    is opened. *)
Theorem newfile_calls_in_order s b w ret s' b' w' tr pre e post :
  run handler (newfile s b) w = (ret, s', b', w', tr) ->
  tr = pre ++ e :: post ->
  step_of e <> StepScrFree ->
  Forall (fun e' => ~ failed e') pre /\
  map step_of (pre ++ [e]) = take (S (length pre)) rollover_order.
Proof.
  intros Hrun Htr Hstep. apply newfile_run_inv in Hrun.
  destruct Hrun; take_apart Htr; try (exfalso; apply Hstep; reflexivity);
    (split; [ repeat (constructor; [ cbv; intuition | ]); constructor
            | reflexivity ]).
Qed.

(** X3: a return code other than zero has a cause, and zero means the whole
    rollover was done.  When the rollover returns [0] it has made all seven
    calls and the release, in order, and none failed; when it returns
    another code, one of its calls failed with that code. *)
Theorem newfile_error_has_cause s b w ret s' b' w' tr :
  run handler (newfile s b) w = (ret, s', b', w', tr) ->
  (ret = 0 ->
   map step_of tr = rollover_order ++ [StepScrFree] /\
   Forall (fun e => ~ failed e) tr) /\
  (ret <> 0 -> exists e, In e tr /\ failed e /\ ev_ret e = Some ret).
Proof.
  intros Hrun. apply newfile_run_inv in Hrun. split.
  - intros ->. inversion Hrun; subst; try congruence.
    split; [ reflexivity | ].
    repeat (constructor; [ cbv; intuition | ]); constructor.
  - intros Hne. destruct Hrun.
    + exists (ev_scr_alloc e tmp). cbn. tauto.
    + exists (ev_close b e fh1). cbn. tauto.
    + exists (ev_buf_fmt b tmp e). cbn. tauto.
    + exists (ev_open WT_FS_OPEN_CREATE s b fh1 e fh2). cbn. tauto.
    + exists (ev_desc_write b fh2 e). cbn. tauto.
    + exists (ev_ckpt_init ci1 e ci2). cbn. tauto.
Qed.

Ltac other_call H := apply (f_equal ev_call) in H; cbn in H; discriminate H.
Ltac other_step H := apply (f_equal step_of) in H; cbn in H; congruence.

(** X4: how the new file is opened.  Every open of a rollover asks for a
    data file with the flags of the block and the create flag: the bits of
    [WT_FS_OPEN_CREATE] are all set and so are those of [file_flags].  The
    close went through before it, and whatever the open stores as the file
    handle, on success or not, is the handle the block is left with. *)
Theorem newfile_open_arguments s b w ret s' b' w' tr bst fname ty flags fhp r :
  run handler (newfile s b) w = (ret, s', b', w', tr) ->
  In (Ev (Open bst fname ty flags fhp) r) tr ->
  ty = WT_FS_OPEN_FILE_TYPE_DATA /\
  flags = Z.lor WT_FS_OPEN_CREATE (file_flags b) /\
  Z.land flags WT_FS_OPEN_CREATE = WT_FS_OPEN_CREATE /\
  Z.land flags (file_flags b) = file_flags b /\
  succeeded StepClose tr /\
  fh b' = snd r.
Proof.
  intros Hrun Hin. apply newfile_run_inv in Hrun.
  assert (Hgoal : ty = WT_FS_OPEN_FILE_TYPE_DATA /\
                  flags = Z.lor WT_FS_OPEN_CREATE (file_flags b) /\
                  succeeded StepClose tr /\ fh b' = snd r).
  { destruct Hrun; cbn in Hin;
      repeat (destruct Hin as [Hin | Hin];
              [ first
                  [ other_call Hin
                  | pose proof (f_equal ev_call Hin) as Hc; cbn in Hc;
                    injection Hc as _ _ <- <- _;
                    pose proof (f_equal ev_stored_fh Hin) as Hr; cbn in Hr;
                    injection Hr as Hr;
                    split_and!;
                    [ reflexivity | reflexivity
                    | exists (ev_close b 0 fh1); cbn; tauto
                    | cbn; exact Hr ] ]
              | ]);
      contradiction. }
  destruct Hgoal as (-> & -> & Hclose & Hfh).
  split_and!; try reflexivity; try assumption.
  - apply land_lor_absorb.
  - rewrite Z.lor_comm. apply land_lor_absorb.
Qed.

(** X5: what a rollover never changes.  On every way out, failed or not,
    the block has the name, the allocation size, the file flags and the
    [has_objects] mark it came with. *)
Theorem newfile_keeps_identity s b w ret s' b' w' tr :
  run handler (newfile s b) w = (ret, s', b', w', tr) ->
  name b' = name b /\
  allocsize b' = allocsize b /\
  file_flags b' = file_flags b /\
  has_objects b' = has_objects b.
Proof.
  intros Hrun. apply newfile_run_inv in Hrun.
  destruct Hrun; split_and!; reflexivity.
Qed.

Ltac not_that_step H :=
  let e := fresh "e" in
  let Hin := fresh "Hin" in
  let Hst := fresh "Hst" in
  let Hr := fresh "Hr" in
  destruct H as (e & Hin & Hst & Hr); cbn in Hin;
  repeat (destruct Hin as [<- | Hin];
          [ first [ discriminate Hst | cbn in Hr; congruence ] | ]);
  contradiction.

(** X6: the object id moves exactly when the close went through.  After a
    rollover in which [__wt_close] returned [0] the object id is the old one
    plus one, as a [uint32_t], however the rollover ended; after one in
    which it did not, the rollover has failed and the object id and the size
    are the old ones. *)
Theorem newfile_objectid_follows_close s b w ret s' b' w' tr :
  run handler (newfile s b) w = (ret, s', b', w', tr) ->
  (succeeded StepClose tr -> objectid b' = u32 (objectid b + 1)) /\
  (~ succeeded StepClose tr ->
   objectid b' = objectid b /\ size b' = size b /\ ret <> 0).
Proof.
  intros Hrun. apply newfile_run_inv in Hrun.
  destruct Hrun; split; intros Hc;
    try reflexivity;
    try (exfalso; apply Hc; exists (ev_close b 0 fh1); cbn; tauto);
    try (not_that_step Hc);
    split_and!; first [ reflexivity | assumption ].
Qed.

(** X7: the size moves exactly when the descriptor was written.  After a
    rollover in which [__wt_desc_write] returned [0] the size is
    [allocsize], even if the rollover then failed in the checkpoint; after
    one in which it did not, the rollover has failed and the size is the old
    one. *)
Theorem newfile_size_follows_descriptor s b w ret s' b' w' tr :
  run handler (newfile s b) w = (ret, s', b', w', tr) ->
  (succeeded StepDescWrite tr -> size b' = allocsize b) /\
  (~ succeeded StepDescWrite tr -> size b' = size b /\ ret <> 0).
Proof.
  intros Hrun. apply newfile_run_inv in Hrun.
  destruct Hrun; split; intros Hc;
    try reflexivity;
    try (exfalso; apply Hc; exists (ev_desc_write b fh2 0); cbn; tauto);
    try (not_that_step Hc);
    split_and!; first [ reflexivity | assumption ].
Qed.

(** X8: a failed scratch allocation leaves everything alone.  When the
    first call of the rollover fails, the block and the session are returned
    exactly as they came and [__wt_close] is not called: the file handle is
    still the open one. *)
Theorem newfile_scr_alloc_failure s b w ret s' b' w' tr e post :
  run handler (newfile s b) w = (ret, s', b', w', tr) ->
  tr = e :: post ->
  failed e ->
  b' = b /\ s' = s /\ ev_ret e = Some ret /\
  Forall (fun e' => step_of e' <> StepClose) tr.
Proof.
  intros Hrun Htr Hf. apply newfile_run_inv in Hrun.
  destruct Hrun; injection Htr as <- <-; cbv in Hf; try tauto.
  split_and!; try reflexivity.
  repeat (constructor; [ cbv; discriminate | ]); constructor.
Qed.

(** X9: a rollover that fails in the checkpoint initialisation has already
    switched files.  It returns the code of [__wt_block_ckpt_init], and the
    block is on the next object id, holds the handle of the new file, opened
    and with its descriptor written, has the size [allocsize] and, as
    [live], what the failed initialisation left. *)
Theorem newfile_ckpt_init_failure s b w ret s' b' w' tr e :
  run handler (newfile s b) w = (ret, s', b', w', tr) ->
  In e tr -> step_of e = StepCkptInit -> failed e ->
  ev_ret e = Some ret /\
  objectid b' = u32 (objectid b + 1) /\
  size b' = allocsize b /\
  succeeded StepOpen tr /\
  succeeded StepDescWrite tr /\
  In (Ev (DescWrite (fh b') (allocsize b)) 0) tr /\
  exists ci1 ci2, e = ev_ckpt_init ci1 ret ci2 /\ live b' = ci2.
Proof.
  intros Hrun Hin Hst Hf. apply newfile_run_inv in Hrun.
  destruct Hrun; cbn in Hin;
    repeat (destruct Hin as [<- | Hin]; [ try discriminate Hst | ]);
    try contradiction.
  split_and!; try reflexivity.
  - exists (ev_open WT_FS_OPEN_CREATE s b fh1 0 fh2). cbn. tauto.
  - exists (ev_desc_write b fh2 0). cbn. tauto.
  - cbn. unfold ev_desc_write. tauto.
  - exists ci1, ci2. split; reflexivity.
Qed.

End Rollover.

(** ** Object names and rollovers in a row *)

(** X10: two object ids never share a name.  For one table, the names
    formatted for two 32-bit object ids are the same only when the ids are. *)
Theorem fmt_object_name_inj (nm : string) (a b : Z) :
  is_u32 a -> is_u32 b ->
  fmt_object_name nm a = fmt_object_name nm b -> a = b.
Proof.
  intros Ha Hb Heq. unfold fmt_object_name in Heq.
  apply (inj (String.app nm)) in Heq.
  apply (inj (String.app ".")) in Heq.
  apply (f_equal digits_value) in Heq.
  rewrite !fmt_0u_value in Heq by assumption.
  congruence.
Qed.

Section Sequences.

Context {W : Type} (handler : forall c : Call, W -> Resp c * W).
Variable WT_FS_OPEN_CREATE : Z.

Local Notation "'newfile'" := (__wt_block_tiered_newfile WT_FS_OPEN_CREATE).
Local Notation "'flush'" := (__wt_block_tiered_flush WT_FS_OPEN_CREATE).
Local Notation "'load'" := (__wt_block_tiered_load WT_FS_OPEN_CREATE).
Local Notation "'rollovers_'" := (rollovers WT_FS_OPEN_CREATE).

(** What one successful rollover asks to open, and where it leaves the
    block. *)
Lemma newfile_success_request s b w s' b' w' tr :
  run handler (newfile s b) w = (0, s', b', w', tr) ->
  open_requests tr = [fmt_object_name (name b) (objectid b')] /\
  name b' = name b /\
  allocsize b' = allocsize b /\
  size b' = allocsize b /\
  objectid b' = u32 (objectid b + 1).
Proof.
  intros Hrun. apply newfile_success in Hrun.
  destruct Hrun as (tmp & fh1 & fh2 & ci1 & ci2 & tmp' & -> & -> & ->).
  split_and!; reflexivity.
Qed.

Lemma rollovers_requests n :
  forall s b w log s' b' w' tr,
    run handler (rollovers_ n s b) w = (log, s', b', w', tr) ->
    Forall (fun x => fst x = 0) log ->
    open_requests tr = map (fmt_object_name (name b)) (map snd log) /\
    name b' = name b.
Proof.
  induction n as [| n IH]; intros s b w log s' b' w' tr Hrun Hok.
  - cbn in Hrun. injection Hrun as <- _ <- _ <-. split; reflexivity.
  - rewrite rollovers_run_succ in Hrun.
    destruct (run handler (newfile s b) w) as [[[[ret s1] b1] w1] tr1] eqn:H1.
    destruct (run handler (rollovers_ n s1 b1) w1) as [[[[l s2] b2] w2] tr2] eqn:H2.
    injection Hrun as <- _ <- _ <-.
    apply Forall_cons in Hok. destruct Hok as [Hret Hok]. cbn in Hret. subst ret.
    apply newfile_success_request in H1. destruct H1 as (Hreq & Hname & _).
    destruct (IH _ _ _ _ _ _ _ _ H2 Hok) as (Hreqs & Hname2).
    rewrite open_requests_app, Hreq, Hreqs, Hname. cbn [map snd app].
    split; [ reflexivity | congruence ].
Qed.

(** X11: rollovers in a row never ask for the same file twice.  The files
    opened by [n] successful rollovers of a block are those named after the
    ids the block goes through, in that order, and for [n] below [2^32] no
    two of the names are the same; the block keeps its name. *)
Theorem rollovers_names_distinct n s b w log s' b' w' tr :
  run handler (rollovers_ n s b) w = (log, s', b', w', tr) ->
  Forall (fun x => fst x = 0) log ->
  open_requests tr = map (fmt_object_name (name b)) (map snd log) /\
  length (open_requests tr) = n /\
  name b' = name b /\
  (Z.of_nat n < 2 ^ 32 -> NoDup (open_requests tr)).
Proof.
  intros Hrun Hok.
  destruct (rollovers_requests n _ _ _ _ _ _ _ _ Hrun Hok) as (Hreq & Hname).
  pose proof (rollovers_ids handler WT_FS_OPEN_CREATE n _ _ _ _ _ _ _ _ Hrun Hok) as Hids.
  split_and!; [ exact Hreq | | exact Hname | ].
  - rewrite Hreq, Hids, !length_map, length_seq. reflexivity.
  - intros Hn. rewrite Hreq, Hids.
    change (NoDup (fmt_object_name (name b) <$>
                   map (fun i => u32 (objectid b + Z.of_nat i)) (seq 1 n))).
    apply NoDup_fmap_2_strong; [ | apply ids_modulo_NoDup, Hn ].
    intros x y Hx Hy Heq.
    apply list_elem_of_In, in_map_iff in Hx. destruct Hx as (i & <- & _).
    apply list_elem_of_In, in_map_iff in Hy. destruct Hy as (j & <- & _).
    unfold fmt_object_name in Heq.
    apply (inj (String.app (name b))) in Heq.
    apply (inj (String.app ".")) in Heq.
    apply (f_equal digits_value) in Heq.
    rewrite !fmt_0u_value in Heq by apply u32_range.
    congruence.
Qed.

(** X12: load looks at nothing of the block's object id and at nothing of
    the checkpoint but [root_objectid].  On a block with objects, loading
    does the same, call for call, whatever object id the block held before
    and for any two checkpoints with the same [root_objectid]. *)
Theorem load_ignores_old_objectid s b x ci ci' w :
  has_objects b = true ->
  root_objectid ci = root_objectid ci' ->
  run handler (load s (set_objectid x b) ci) w = run handler (load s b ci') w.
Proof.
  intros Hobj Hroot.
  rewrite (load_run_with_objects handler WT_FS_OPEN_CREATE s (set_objectid x b) ci w)
    by exact Hobj.
  rewrite (load_run_with_objects handler WT_FS_OPEN_CREATE s b ci' w) by exact Hobj.
  rewrite Hroot. reflexivity.
Qed.

(** X13: a load that fails has overwritten the object id all the same.  On
    a block with objects, a load that returns a code other than zero returns
    the code of the call of the rollover that failed, and leaves as the
    block's object id the checkpoint's [root_objectid] or that plus one, as
    the close went through or not: the id the block held before the load is
    not put back. *)
Theorem load_failure_keeps_seed s b ci w ret s' b' w' tr :
  has_objects b = true ->
  run handler (load s b ci) w = (ret, s', b', w', tr) ->
  ret <> 0 ->
  (exists e, In e tr /\ failed e /\ ev_ret e = Some ret) /\
  (succeeded StepClose tr -> objectid b' = u32 (root_objectid ci + 1)) /\
  (~ succeeded StepClose tr -> objectid b' = root_objectid ci).
Proof.
  intros Hobj Hrun Hne.
  rewrite load_run_with_objects in Hrun by exact Hobj.
  apply newfile_run_inv in Hrun.
  set (b0 := set_objectid (root_objectid ci) b) in *.
  destruct Hrun; split_and!;
    try (intros Hc);
    try reflexivity;
    try (exfalso; apply Hc; exists (ev_close b0 0 fh1); cbn; tauto);
    try (destruct Hc as (e' & Hin & Hst & Hr); cbn in Hin;
         repeat (destruct Hin as [<- | Hin];
                 [ first [ discriminate Hst | cbn in Hr; congruence ] | ]);
         contradiction).
  - exists (ev_scr_alloc e tmp). cbn. tauto.
  - exists (ev_close b0 e fh1). cbn. tauto.
  - exists (ev_buf_fmt b0 tmp e). cbn. tauto.
  - exists (ev_open WT_FS_OPEN_CREATE s b0 fh1 e fh2). cbn. tauto.
  - exists (ev_desc_write b0 fh2 e). cbn. tauto.
  - exists (ev_ckpt_init ci1 e ci2). cbn. tauto.
Qed.

(** X14: a load and then a flush.  On a block with objects, a successful
    load of a checkpoint followed by a successful flush leaves the block two
    ids above the checkpoint's [root_objectid], as a [uint32_t], with the
    size [allocsize] and its name; the two files opened are those named
    after the two ids, and the caller's cookie is as it was. *)
Theorem load_then_flush s b ci w s1 b1 w1 tr1 c sz w2 s2 b2 c' sz' w3 tr2 :
  has_objects b = true ->
  run handler (load s b ci) w = (0, s1, b1, w1, tr1) ->
  run handler (flush s1 b1 c sz) w2 = (0, s2, b2, c', sz', w3, tr2) ->
  objectid b1 = u32 (root_objectid ci + 1) /\
  objectid b2 = u32 (root_objectid ci + 2) /\
  size b2 = allocsize b /\
  name b2 = name b /\
  open_requests (tr1 ++ tr2) =
    [fmt_object_name (name b) (objectid b1); fmt_object_name (name b) (objectid b2)] /\
  c' = c /\ sz' = sz.
Proof.
  intros Hobj Hload Hflush.
  rewrite load_run_with_objects in Hload by exact Hobj.
  apply newfile_success_request in Hload.
  destruct Hload as (Hreq1 & Hname1 & Halloc1 & _ & Hid1).
  cbn [name objectid allocsize set_objectid] in Hreq1, Hname1, Halloc1, Hid1.
  unfold __wt_block_tiered_flush in Hflush.
  cbn -[__wt_block_tiered_newfile] in Hflush. unfold mbind, prog_bind in Hflush.
  rewrite run_bind in Hflush.
  destruct (run handler (newfile s1 b1) w2) as [[[[ret0 s0] b0] w0] tr0] eqn:Hrun2.
  cbn in Hflush. rewrite app_nil_r in Hflush.
  injection Hflush as -> <- <- <- <- <- <-.
  apply newfile_success_request in Hrun2.
  destruct Hrun2 as (Hreq2 & Hname2 & _ & Hsize2 & Hid2).
  split_and!; try reflexivity.
  - exact Hid1.
  - rewrite Hid2, Hid1, u32_add_u32_l. f_equal. lia.
  - congruence.
  - congruence.
  - rewrite open_requests_app, Hreq1, Hreq2, Hname1. reflexivity.
Qed.

End Sequences.

(** ** The further theorems at work on the simulated file system *)

Ltac not_succeeded :=
  let e := fresh "e" in
  let Hin := fresh "Hin" in
  let Hst := fresh "Hst" in
  let Hr := fresh "Hr" in
  intros (e & Hin & Hst & Hr); cbn in Hin;
  repeat (destruct Hin as [<- | Hin];
          [ first [ discriminate Hst | discriminate Hr ] | ]);
  contradiction.

(** The open fails: the scratch buffer is released all the same, after the
    three calls that followed its allocation. *)
Lemma newfile_scratch_released_witness :
  exists r tmp mid tmp',
    trace_of (Sim.newfile_on [0; 0; 0; Sim.EIO] Sim.coll1) =
      ev_scr_alloc r tmp :: mid ++ [ev_scr_free tmp tmp'] /\
    Forall (fun e => step_of e <> StepScrAlloc /\ step_of e <> StepScrFree) mid /\
    length mid = 3%nat.
Proof.
  destruct (Sim.newfile_on [0; 0; 0; Sim.EIO] Sim.coll1) as [[[[ret s'] b'] w'] tr] eqn:Hrun.
  destruct (newfile_scratch_released Sim.handler Sim.WT_FS_OPEN_CREATE
              _ _ _ _ _ _ _ _ Hrun) as (r & tmp & mid & tmp' & Htr & Hmid).
  exists r, tmp, mid, tmp'. cbn [trace_of]. split_and!; [ exact Htr | exact Hmid | ].
  vm_compute in Hrun. injection Hrun as _ _ _ _ <-.
  apply (f_equal length) in Htr. cbn in Htr. rewrite length_app in Htr.
  cbn in Htr. lia.
Defined.

(** The open fails: it was the fourth call, after three that succeeded. *)
Lemma newfile_calls_in_order_witness :
  exists s' b' w' pre e post,
    Sim.newfile_on [0; 0; 0; Sim.EIO] Sim.coll1 = (Sim.EIO, s', b', w', pre ++ e :: post) /\
    step_of e = StepOpen /\
    map step_of (pre ++ [e]) = [StepScrAlloc; StepClose; StepBufFmt; StepOpen] /\
    Forall (fun e' => ~ failed e') pre.
Proof.
  let r := eval vm_compute in (Sim.newfile_on [0; 0; 0; Sim.EIO] Sim.coll1) in
  lazymatch r with
  | (_, ?s', ?b', ?w', ?e1 :: ?e2 :: ?e3 :: ?e4 :: ?post) =>
      exists s', b', w', [e1; e2; e3], e4, post;
      assert (Hrun : Sim.newfile_on [0; 0; 0; Sim.EIO] Sim.coll1 =
                     (Sim.EIO, s', b', w', [e1; e2; e3] ++ e4 :: post))
        by (vm_compute; reflexivity);
      assert (Hst : step_of e4 <> StepScrFree) by (cbn; discriminate);
      destruct (newfile_calls_in_order Sim.handler Sim.WT_FS_OPEN_CREATE
                  _ _ _ _ _ _ _ _ _ _ _ Hrun eq_refl Hst) as (Hok & Hord);
      split_and!; [ exact Hrun | reflexivity | exact Hord | exact Hok ]
  end.
Defined.

(** A rollover that goes through, and one whose close has no space left. *)
Lemma newfile_error_has_cause_witness :
  map step_of (trace_of (Sim.newfile_on [] Sim.coll1)) = rollover_order ++ [StepScrFree] /\
  exists e, In e (trace_of (Sim.newfile_on [0; Sim.ENOSPC] Sim.coll1)) /\
            failed e /\ ev_ret e = Some Sim.ENOSPC.
Proof.
  split.
  - destruct (Sim.newfile_on [] Sim.coll1) as [[[[ret s'] b'] w'] tr] eqn:Hrun.
    assert (Hret : ret = 0) by (vm_compute in Hrun; congruence).
    destruct (newfile_error_has_cause Sim.handler Sim.WT_FS_OPEN_CREATE
                _ _ _ _ _ _ _ _ Hrun) as (Hzero & _).
    exact (proj1 (Hzero Hret)).
  - destruct (Sim.newfile_on [0; Sim.ENOSPC] Sim.coll1) as [[[[ret s'] b'] w'] tr] eqn:Hrun.
    assert (Hret : ret = Sim.ENOSPC)
      by (vm_compute in Hrun; injection Hrun as <- _ _ _ _; reflexivity).
    destruct (newfile_error_has_cause Sim.handler Sim.WT_FS_OPEN_CREATE
                _ _ _ _ _ _ _ _ Hrun) as (_ & Hcause).
    rewrite <- Hret. apply Hcause. rewrite Hret. discriminate.
Defined.

(** The open of Scenario A: a data file, created if need be, whose handle
    the block holds afterwards. *)
Lemma newfile_open_arguments_witness :
  In (Ev (Open None "coll1.00000004" WT_FS_OPEN_FILE_TYPE_DATA 4 None) (0, Some 3%N))
     (trace_of (Sim.newfile_on [] Sim.coll1)) /\
  Z.land 4 Sim.WT_FS_OPEN_CREATE = Sim.WT_FS_OPEN_CREATE /\
  fh (block_of (Sim.newfile_on [] Sim.coll1)) = Some 3%N.
Proof.
  destruct (Sim.newfile_on [] Sim.coll1) as [[[[ret s'] b'] w'] tr] eqn:Hrun.
  assert (Hin : In (Ev (Open None "coll1.00000004" WT_FS_OPEN_FILE_TYPE_DATA 4 None)
                      (0, Some 3%N)) tr).
  { vm_compute in Hrun. injection Hrun as _ _ _ _ <-. cbn. tauto. }
  destruct (newfile_open_arguments Sim.handler Sim.WT_FS_OPEN_CREATE
              _ _ _ _ _ _ _ _ _ _ _ _ _ _ Hrun Hin) as (_ & _ & Hbit & _ & _ & Hfh).
  cbn [trace_of block_of]. split_and!; [ exact Hin | exact Hbit | exact Hfh ].
Defined.

(** Whatever the outcome, [coll1] is still [coll1]. *)
Lemma newfile_keeps_identity_witness :
  name (block_of (Sim.newfile_on [0; 0; 0; Sim.EIO] Sim.coll1)) = "coll1" /\
  allocsize (block_of (Sim.newfile_on [0; 0; 0; Sim.EIO] Sim.coll1)) = 512 /\
  has_objects (block_of (Sim.newfile_on [0; 0; 0; Sim.EIO] Sim.coll1)) = true.
Proof.
  destruct (Sim.newfile_on [0; 0; 0; Sim.EIO] Sim.coll1) as [[[[ret s'] b'] w'] tr] eqn:Hrun.
  destruct (newfile_keeps_identity Sim.handler Sim.WT_FS_OPEN_CREATE
              _ _ _ _ _ _ _ _ Hrun) as (Hn & Ha & _ & Hh).
  cbn [block_of]. rewrite Hn, Ha, Hh. split_and!; reflexivity.
Defined.

(** The close fails: the block stays on object 3.  The open fails: the
    block is on object 4. *)
Lemma newfile_objectid_follows_close_witness :
  objectid (block_of (Sim.newfile_on [0; Sim.EIO] Sim.coll1)) = 3 /\
  objectid (block_of (Sim.newfile_on [0; 0; 0; Sim.EIO] Sim.coll1)) = 4.
Proof.
  split.
  - destruct (Sim.newfile_on [0; Sim.EIO] Sim.coll1) as [[[[ret s'] b'] w'] tr] eqn:Hrun.
    destruct (newfile_objectid_follows_close Sim.handler Sim.WT_FS_OPEN_CREATE
                _ _ _ _ _ _ _ _ Hrun) as (_ & Hno).
    cbn [block_of]. apply Hno.
    vm_compute in Hrun. injection Hrun as _ _ _ _ <-. not_succeeded.
  - destruct (Sim.newfile_on [0; 0; 0; Sim.EIO] Sim.coll1) as [[[[ret s'] b'] w'] tr] eqn:Hrun.
    destruct (newfile_objectid_follows_close Sim.handler Sim.WT_FS_OPEN_CREATE
                _ _ _ _ _ _ _ _ Hrun) as (Hyes & _).
    cbn [block_of]. apply Hyes.
    vm_compute in Hrun. injection Hrun as _ _ _ _ <-.
    exists (Ev (Close (Some 1%N)) (0, None)). cbn. tauto.
Defined.

(** The descriptor write fails: the size stays at 2048.  The checkpoint
    initialisation fails: the size is 512 already. *)
Lemma newfile_size_follows_descriptor_witness :
  size (block_of (Sim.newfile_on [0; 0; 0; 0; Sim.ENOSPC] Sim.coll1)) = 2048 /\
  size (block_of (Sim.newfile_on [0; 0; 0; 0; 0; Sim.EIO] Sim.coll1)) = 512.
Proof.
  split.
  - destruct (Sim.newfile_on [0; 0; 0; 0; Sim.ENOSPC] Sim.coll1)
      as [[[[ret s'] b'] w'] tr] eqn:Hrun.
    destruct (newfile_size_follows_descriptor Sim.handler Sim.WT_FS_OPEN_CREATE
                _ _ _ _ _ _ _ _ Hrun) as (_ & Hno).
    cbn [block_of]. apply Hno.
    vm_compute in Hrun. injection Hrun as _ _ _ _ <-. not_succeeded.
  - destruct (Sim.newfile_on [0; 0; 0; 0; 0; Sim.EIO] Sim.coll1)
      as [[[[ret s'] b'] w'] tr] eqn:Hrun.
    destruct (newfile_size_follows_descriptor Sim.handler Sim.WT_FS_OPEN_CREATE
                _ _ _ _ _ _ _ _ Hrun) as (Hyes & _).
    cbn [block_of]. apply Hyes.
    vm_compute in Hrun. injection Hrun as _ _ _ _ <-.
    exists (Ev (DescWrite (Some 3%N) 512) 0). cbn. tauto.
Defined.

(** No scratch buffer to be had: [coll1] is returned as it came, its file
    still open. *)
Lemma newfile_scr_alloc_failure_witness :
  block_of (Sim.newfile_on [Sim.ENOSPC] Sim.coll1) = Sim.coll1 /\
  fh (block_of (Sim.newfile_on [Sim.ENOSPC] Sim.coll1)) = Some 1%N.
Proof.
  let r := eval vm_compute in (Sim.newfile_on [Sim.ENOSPC] Sim.coll1) in
  lazymatch r with
  | (?ret, ?s', ?b', ?w', ?e1 :: ?post) =>
      assert (Hrun : Sim.newfile_on [Sim.ENOSPC] Sim.coll1 = (ret, s', b', w', e1 :: post))
        by (vm_compute; reflexivity);
      assert (Hf : failed e1) by (vm_compute; discriminate);
      destruct (newfile_scr_alloc_failure Sim.handler Sim.WT_FS_OPEN_CREATE
                  _ _ _ _ _ _ _ _ _ _ Hrun eq_refl Hf) as (Hb & _);
      rewrite Hrun; cbn [block_of]; rewrite Hb; split; reflexivity
  end.
Defined.

(** The checkpoint initialisation fails: the rollover returns [EIO] with
    the block on object 4 and 512 bytes long. *)
Lemma newfile_ckpt_init_failure_witness :
  ret_of (Sim.newfile_on [0; 0; 0; 0; 0; Sim.EIO] Sim.coll1) = Sim.EIO /\
  objectid (block_of (Sim.newfile_on [0; 0; 0; 0; 0; Sim.EIO] Sim.coll1)) = 4 /\
  size (block_of (Sim.newfile_on [0; 0; 0; 0; 0; Sim.EIO] Sim.coll1)) = 512.
Proof.
  let r := eval vm_compute in (Sim.newfile_on [0; 0; 0; 0; 0; Sim.EIO] Sim.coll1) in
  lazymatch r with
  | (?ret, ?s', ?b', ?w', ?e1 :: ?e2 :: ?e3 :: ?e4 :: ?e5 :: ?e6 :: ?e7 :: ?post) =>
      assert (Hrun : Sim.newfile_on [0; 0; 0; 0; 0; Sim.EIO] Sim.coll1 =
                     (ret, s', b', w', e1 :: e2 :: e3 :: e4 :: e5 :: e6 :: e7 :: post))
        by (vm_compute; reflexivity);
      assert (Hin : In e7 (e1 :: e2 :: e3 :: e4 :: e5 :: e6 :: e7 :: post))
        by (cbn; tauto);
      assert (Hf : failed e7) by (vm_compute; discriminate);
      destruct (newfile_ckpt_init_failure Sim.handler Sim.WT_FS_OPEN_CREATE
                  _ _ _ _ _ _ _ _ _ Hrun Hin eq_refl Hf) as (Hret & Hid & Hsz & _);
      rewrite Hrun; cbn [ret_of block_of]; rewrite Hid, Hsz;
      split_and!; reflexivity
  end.
Defined.

(** The name of object 4 of [coll1] is the name of no other object. *)
Lemma fmt_object_name_inj_witness :
  fmt_object_name "coll1" 4 = "coll1.00000004" /\
  forall b, is_u32 b -> fmt_object_name "coll1" b = "coll1.00000004" -> b = 4.
Proof.
  split; [ reflexivity | ].
  intros b Hb Heq. symmetry.
  apply (fmt_object_name_inj "coll1" 4 b); [ vm_compute; split; discriminate | exact Hb | ].
  rewrite Heq. reflexivity.
Defined.

(** Three rollovers from object 3 open three files. *)
Lemma rollovers_names_distinct_witness :
  open_requests (trace_of_rollovers (Sim.rollovers_on [] 3 Sim.coll1)) =
    ["coll1.00000004"; "coll1.00000005"; "coll1.00000006"] /\
  NoDup (open_requests (trace_of_rollovers (Sim.rollovers_on [] 3 Sim.coll1))).
Proof.
  destruct (Sim.rollovers_on [] 3 Sim.coll1) as [[[[log s'] b'] w'] tr] eqn:Hrun.
  assert (Hlog : log = [(0, 4); (0, 5); (0, 6)])
    by (vm_compute in Hrun; injection Hrun as <- _ _ _ _; reflexivity).
  assert (Hok : Forall (fun x => fst x = 0) log)
    by (rewrite Hlog; repeat constructor).
  destruct (rollovers_names_distinct Sim.handler Sim.WT_FS_OPEN_CREATE
              _ _ _ _ _ _ _ _ _ Hrun Hok) as (Hreq & _ & _ & Hnd).
  cbn [trace_of_rollovers]. split.
  - rewrite Hreq, Hlog. reflexivity.
  - apply Hnd. vm_compute. reflexivity.
Defined.

(** Loading the checkpoint of object 7 into [coll1] is the same from object
    3 as from object 99. *)
Lemma load_ignores_old_objectid_witness :
  Sim.load_on [] (set_objectid 99 Sim.coll1) Sim.ckpt7 =
  Sim.load_on [] Sim.coll1 {| root_objectid := 7; ckpt_rest := [] |}.
Proof.
  apply (load_ignores_old_objectid Sim.handler Sim.WT_FS_OPEN_CREATE); reflexivity.
Defined.

(** The open fails during the load of the checkpoint of object 7: [coll1],
    on object 3 before, is left on object 8. *)
Lemma load_failure_keeps_seed_witness :
  ret_of (Sim.load_on [0; 0; 0; Sim.EIO] Sim.coll1 Sim.ckpt7) = Sim.EIO /\
  objectid Sim.coll1 = 3 /\
  objectid (block_of (Sim.load_on [0; 0; 0; Sim.EIO] Sim.coll1 Sim.ckpt7)) = 8.
Proof.
  destruct (Sim.load_on [0; 0; 0; Sim.EIO] Sim.coll1 Sim.ckpt7)
    as [[[[ret s'] b'] w'] tr] eqn:Hrun.
  assert (Hret : ret = Sim.EIO)
    by (vm_compute in Hrun; injection Hrun as <- _ _ _ _; reflexivity).
  assert (Hne : ret <> 0) by (rewrite Hret; discriminate).
  destruct (load_failure_keeps_seed Sim.handler Sim.WT_FS_OPEN_CREATE
              Sim.session0 Sim.coll1 Sim.ckpt7 _ _ _ _ _ _ eq_refl Hrun Hne)
    as (_ & Hyes & _).
  cbn [ret_of block_of]. split_and!; [ exact Hret | reflexivity | ].
  apply Hyes. vm_compute in Hrun. injection Hrun as _ _ _ _ <-.
  exists (Ev (Close (Some 1%N)) (0, None)). cbn. tauto.
Defined.

(** Scenario B, then Scenario D: from the checkpoint of object 7 to object
    8, then to object 9. *)
Lemma load_then_flush_witness :
  exists s1 b1 w1 tr1 s2 b2 w2 tr2,
    Sim.load_on [] Sim.coll1 Sim.ckpt7 = (0, s1, b1, w1, tr1) /\
    run Sim.handler (__wt_block_tiered_flush Sim.WT_FS_OPEN_CREATE s1 b1 None None) w1 =
      (0, s2, b2, None, None, w2, tr2) /\
    objectid b1 = 8 /\ objectid b2 = 9 /\
    open_requests (tr1 ++ tr2) = ["coll1.00000008"; "coll1.00000009"].
Proof.
  let r := eval vm_compute in (Sim.load_on [] Sim.coll1 Sim.ckpt7) in
  lazymatch r with
  | (_, ?s1, ?b1, ?w1, ?tr1) =>
      let r2 := eval vm_compute in
        (run Sim.handler
           (__wt_block_tiered_flush Sim.WT_FS_OPEN_CREATE s1 b1 None None) w1) in
      lazymatch r2 with
      | (_, ?s2, ?b2, _, _, ?w2, ?tr2) =>
          exists s1, b1, w1, tr1, s2, b2, w2, tr2;
          assert (Hrun1 : Sim.load_on [] Sim.coll1 Sim.ckpt7 = (0, s1, b1, w1, tr1))
            by (vm_compute; reflexivity);
          assert (Hrun2 : run Sim.handler
                            (__wt_block_tiered_flush Sim.WT_FS_OPEN_CREATE
                               s1 b1 None None) w1 =
                          (0, s2, b2, None, None, w2, tr2))
            by (vm_compute; reflexivity);
          destruct (load_then_flush Sim.handler Sim.WT_FS_OPEN_CREATE
                      Sim.session0 Sim.coll1 Sim.ckpt7 _ _ _ _ _ _ _ _ _ _ _ _ _ _
                      eq_refl Hrun1 Hrun2) as (Hid1 & Hid2 & _ & _ & Hreq & _);
          split_and!;
            [ exact Hrun1 | exact Hrun2 | exact Hid1 | exact Hid2 | exact Hreq ]
      end
  end.
Defined.
